(** * Sharding-strategy generator: the shared services of [StrategyGenerator_V2]

    A shallow embedding of
    [colossalai/auto_parallel/solver/strategy/strategy_generator.py]:
    the abstract generator's concrete methods (layout construction, strategy
    assembly, the communication-spec factory, the communication-cost update
    and the byte-size helper), over a small model of the Python runtime
    (exceptions, insertion-ordered dictionaries, tuple unpacking) and of the
    tensor types the methods receive. *)

From Stdlib Require Import ZArith Lia.
From stdpp Require Import base option list strings gmap.

(** ** The Python runtime the methods rely on *)

Module Py.

(** The exceptions the modelled code can raise.  [KeyError] is a failed
    dictionary subscript (the spec's [UnknownOperand]), [ValueError] is the
    explicit [raise] of the cost update (the spec's
    [UnsupportedCommPattern]), [TypeError] is a failed tuple unpacking or a
    [reduce] of an empty sequence without initial value. [IndexError] and
    [NonDivisibleShard] come from the per-device shape derivation. *)
Inductive exn : Type :=
| KeyError
| TypeError
| ValueError
| IndexError
| NonDivisibleShard.

(** A call either returns a value or raises. *)
Inductive result (A : Type) : Type :=
| Ok (a : A)
| Err (e : exn).
Arguments Ok {A} a.
Arguments Err {A} e.

#[global] Instance exn_eq_dec : EqDecision exn.
Proof. solve_decision. Defined.

#[global] Instance result_ret : MRet result := fun A a => Ok a.
#[global] Instance result_bind : MBind result := fun A B f m =>
  match m with
  | Ok a => f a
  | Err e => Err e
  end.

#[global] Instance result_fmap : FMap result := fun A B f m =>
  match m with
  | Ok a => Ok (f a)
  | Err e => Err e
  end.

(** A [dict]: association list in insertion order, one entry per key. *)
Abbreviation dict K V := (list (prod K V)) (only parsing).

Section Dict.
Context {K V : Type} `{EqDecision K}.

Fixpoint dict_get (d : dict K V) (k : K) : option V :=
  match d with
  | [] => None
  | (k', v) :: d' => if decide (k' = k) then Some v else dict_get d' k
  end.

(** [d[k]] *)
Definition getitem (d : dict K V) (k : K) : result V :=
  match dict_get d k with
  | Some v => Ok v
  | None => Err KeyError
  end.

(** [d[k] = v]: an existing key keeps its position, a new one goes last. *)
Fixpoint setitem (d : dict K V) (k : K) (v : V) : dict K V :=
  match d with
  | [] => [(k, v)]
  | (k', v') :: d' =>
      if decide (k' = k) then (k', v) :: d' else (k', v') :: setitem d' k v
  end.

(** [d.items()] *)
Definition items (d : dict K V) : list (K * V) := d.

(** [iter(d)], what [for x in d] walks over: the keys alone. *)
Definition iter (d : dict K V) : list K := d.*1.
End Dict.

(** [m[k]] on a dictionary that is only ever read. *)
Definition lookup_item {V} (m : gmap string V) (k : string) : result V :=
  match m !! k with
  | Some v => Ok v
  | None => Err KeyError
  end.

(** A [for] loop whose body may raise, threading the loop's state. *)
Fixpoint for_each {A S} (body : A -> S -> result S) (l : list A) (s : S)
  : result S :=
  match l with
  | [] => Ok s
  | x :: l' => s' ← body x s; for_each body l' s'
  end.

(** [functools.reduce(operator.mul, xs)], no initial value: an empty
    sequence raises [TypeError]. *)
Definition reduce_mul (xs : list Z) : result Z :=
  match xs with
  | [] => Err TypeError
  | x :: xs' => Ok (fold_left Z.mul xs' x)
  end.

End Py.
Export Py.

(** ** torch element types *)

Module torch.

Inductive dtype : Type :=
| float16 | bfloat16 | float32 | float64
| uint8 | int8 | int16 | int32 | int64 | bool.

#[global] Instance dtype_eq_dec : EqDecision dtype.
Proof. solve_decision. Defined.

(** [torch.tensor([], dtype=dtype).element_size()] *)
Definition element_size (t : dtype) : Z :=
  match t with
  | uint8 | int8 | bool => 1
  | float16 | bfloat16 | int16 => 2
  | float32 | int32 => 4
  | float64 | int64 => 8
  end.

(** The meta tensor an operand carries; only its [dtype] is read here. *)
Record Tensor : Type := { tensor_dtype : dtype }.

#[global] Instance Tensor_eq_dec : EqDecision Tensor.
Proof. solve_decision. Defined.

End torch.

(** ** Device mesh *)

Module DeviceMesh.

(** The logical mesh: the size of each of its axes. *)
Record t : Type := { mesh_shape : list Z }.

#[global] Instance eq_dec : EqDecision t.
Proof. solve_decision. Defined.

Definition num_devices (m : t) : Z := foldr Z.mul 1%Z (mesh_shape m).

(** Modelled from the spec: [DeviceMesh.flatten] is declared in
    [colossalai/device/device_mesh.py], which is not part of the sources.
    The spec: flatten produces a new grid whose single axis size equals the
    product of all axis sizes. *)
Definition flatten (m : t) : t := {| mesh_shape := [num_devices m] |}.

End DeviceMesh.

(** ** Sharding spec (layout descriptor) *)

Module ShardingSpec.

(** Modelled from the spec: the class is declared in
    [colossalai/tensor/sharding_spec.py], which is not part of the sources.
    The spec gives a layout descriptor as a record of a device grid, a
    logical shape and a mapping from dimension indices to grid-axis indices;
    building one is building the record. *)
Record t : Type := {
  device_mesh : DeviceMesh.t;
  entire_shape : list Z;
  dim_partition_dict : dict nat (list nat)
}.

#[global] Instance eq_dec : EqDecision t.
Proof. solve_decision. Defined.

(** [sharding_spec.device_mesh = m] *)
Definition set_device_mesh (m : DeviceMesh.t) (s : t) : t :=
  {| device_mesh := m;
     entire_shape := entire_shape s;
     dim_partition_dict := dim_partition_dict s |}.

(** Product of the sizes of the mesh axes in [axes]; an axis the mesh does
    not have is an [IndexError]. *)
Fixpoint shard_partitions (mesh_shape : list Z) (axes : list nat) : result Z :=
  match axes with
  | [] => Ok 1%Z
  | a :: axes' =>
      match mesh_shape !! a with
      | None => Err IndexError
      | Some n => p ← shard_partitions mesh_shape axes'; Ok (n * p)%Z
      end
  end.

(** One partitioned dimension: divide it by the number of partitions, or
    fail when the division is not exact. *)
Definition shard_dim (mesh_shape : list Z) (dim : nat) (axes : list nat)
    (shape : list Z) : result (list Z) :=
  p ← shard_partitions mesh_shape axes;
  match shape !! dim with
  | None => Err IndexError
  | Some d =>
      if decide ((d mod p)%Z = 0%Z)
      then Ok (<[dim := (d / p)%Z]> shape)
      else Err NonDivisibleShard
  end.

(** Modelled from the spec: [ShardingSpec.get_sharded_shape_per_device] is
    declared in [colossalai/tensor/sharding_spec.py], which is not part of
    the sources.  The spec: the per-device shape is the logical shape with
    each partitioned dimension divided by the product of the sizes of its
    assigned axes; a dimension that does not divide evenly fails with
    [NonDivisibleShard] and is never rounded. *)
Definition get_sharded_shape_per_device (s : t) : result (list Z) :=
  for_each (fun '(dim, axes) shape =>
              shard_dim (DeviceMesh.mesh_shape (device_mesh s)) dim axes shape)
           (items (dim_partition_dict s)) (entire_shape s).

End ShardingSpec.

(** ** Communication spec (communication action) *)

(** The patterns the cost update names, and the rest of the enumeration,
  which this file never spells out. *)
Inductive CollectiveCommPattern : Type :=
| REDUCE_FWD_IDENTITY_BWD
| IDENTITY_FWD_ALLREDUCE_BWD
| OTHER_PATTERN (member : string).

#[global] Instance CollectiveCommPattern_eq_dec : EqDecision CollectiveCommPattern.
Proof. solve_decision. Defined.

(** [logical_process_axis : Union[int, List[int]]] *)
Inductive process_axis : Type :=
| AxisInt (a : nat)
| AxisList (l : list nat).

#[global] Instance process_axis_eq_dec : EqDecision process_axis.
Proof. solve_decision. Defined.

Definition isinstance_list (a : process_axis) : Datatypes.bool :=
match a with AxisList _ => true | AxisInt _ => false end.

(** [len] is only reached for a list: the test before it short-circuits. *)
Definition len (a : process_axis) : nat :=
match a with AxisList l => length l | AxisInt _ => 0 end.

Module CommSpec.

(** Modelled from the spec: the class is declared in
    [colossalai/tensor/shape_consistency.py], which is not part of the
    sources.  The spec gives a communication action as a record of a
    pattern, the layout it acts on and the grid axis or axes it runs over. *)
Record t : Type := {
  comm_pattern : CollectiveCommPattern;
  sharding_spec : ShardingSpec.t;
  logical_process_axis : process_axis
}.

#[global] Instance eq_dec : EqDecision t.
Proof. solve_decision. Defined.

End CommSpec.

(** [CommSpec.get_comm_cost] is declared in
  [colossalai/tensor/shape_consistency.py], which is not part of the
  sources: the number of elements an action communicates is a parameter of
  the development. *)
Class CommCostModel : Type := get_comm_cost : CommSpec.t -> Z.

(** ** Operation data, cost items and strategies *)

Inductive OperationDataType : Type := INPUT | OUTPUT | PARAM.

#[global] Instance OperationDataType_eq_dec : EqDecision OperationDataType.
Proof. solve_decision. Defined.

Module OperationData.

(** An operand or result of the operation: its name, its role, the meta
    tensor it stands for and its logical shape. *)
Record t : Type := {
  name : string;
  type : OperationDataType;
  data : torch.Tensor;
  logical_shape : list Z
}.

(** Modelled from the spec: the class is declared in
    [colossalai/auto_parallel/solver/sharding_strategy.py], which is not
    part of the sources.  The spec: operand descriptors are value types
    with structural equality, so a dictionary keyed by them is well
    defined. *)
#[global] Instance eq_dec : EqDecision t.
Proof. solve_decision. Defined.

End OperationData.

Module TrainCycleItem.

(** A forward and a backward cost, as [TrainCycleItem(fwd=..., bwd=...)]
    builds it. *)
Record t : Type := { fwd : Z; bwd : Z }.

#[global] Instance eq_dec : EqDecision t.
Proof. solve_decision. Defined.

(** [item.fwd += cost] *)
Definition add_fwd (cost : Z) (item : t) : t :=
  {| fwd := (fwd item + cost)%Z; bwd := bwd item |}.

End TrainCycleItem.

Module ShardingStrategy_V2.

(** A strategy is created with its costs undefined ([None]); the
    communication actions may be absent. *)
Record t : Type := {
  name : string;
  sharding_specs : dict OperationData.t ShardingSpec.t;
  communication_actions : option (dict OperationData.t CommSpec.t);
  communication_cost : option TrainCycleItem.t;
  compute_cost : option TrainCycleItem.t;
  memory_cost : option TrainCycleItem.t
}.

(** [strategy.communication_cost = c] *)
Definition set_communication_cost (c : option TrainCycleItem.t) (s : t) : t :=
  {| name := name s;
     sharding_specs := sharding_specs s;
     communication_actions := communication_actions s;
     communication_cost := c;
     compute_cost := compute_cost s;
     memory_cost := memory_cost s |}.

(** [strategy.compute_cost = c] *)
Definition set_compute_cost (c : option TrainCycleItem.t) (s : t) : t :=
  {| name := name s;
     sharding_specs := sharding_specs s;
     communication_actions := communication_actions s;
     communication_cost := communication_cost s;
     compute_cost := c;
     memory_cost := memory_cost s |}.

(** [strategy.memory_cost = c] *)
Definition set_memory_cost (c : option TrainCycleItem.t) (s : t) : t :=
  {| name := name s;
     sharding_specs := sharding_specs s;
     communication_actions := communication_actions s;
     communication_cost := communication_cost s;
     compute_cost := compute_cost s;
     memory_cost := c |}.

End ShardingStrategy_V2.

(** Modelled from the spec: [OperationData] is declared outside the sources;
  the spec gives it as a plain record of four fields.  Such an object has
  no iteration protocol, so the tuple unpacking [a, b = op_data] raises
  [TypeError] before either name is bound. *)
Definition unpack_pair (obj : OperationData.t)
: result (OperationData.t * CommSpec.t) :=
Err TypeError.

(** ** The generator *)

Module StrategyGenerator_V2.

(** [self]: the operand mapping and the device mesh given to [__init__]. *)
Record t : Type := {
  op_data : gmap string OperationData.t;
  device_mesh : DeviceMesh.t
}.

(** [replace_op_name_with_op_data]: rekey a mapping from operand names to
    the operands themselves. *)
Definition replace_op_name_with_op_data {V} (self : t) (mapping : dict string V)
  : result (dict OperationData.t V) :=
  for_each (fun '(k, v) results =>
              op_data ← lookup_item (op_data self) k;
              mret (setitem results op_data v))
           (items mapping) [].

(** [get_sharding_strategy]: the strategy factory. *)
Definition get_sharding_strategy (self : t) (name : string)
    (sharding_spec_mapping : dict string ShardingSpec.t)
    (communication_action_mapping : dict string CommSpec.t)
  : result ShardingStrategy_V2.t :=
  sharding_specs ← replace_op_name_with_op_data self sharding_spec_mapping;
  communication_actions ←
    replace_op_name_with_op_data self communication_action_mapping;
  mret {| ShardingStrategy_V2.name := name;
          ShardingStrategy_V2.sharding_specs := sharding_specs;
          ShardingStrategy_V2.communication_actions := Some communication_actions;
          ShardingStrategy_V2.communication_cost := None;
          ShardingStrategy_V2.compute_cost := None;
          ShardingStrategy_V2.memory_cost := None |}.

(** [to_sharding_spec_mapping]: one sharding spec per named operand, built
    from its dim partition dictionary. *)
Definition to_sharding_spec_mapping (self : t)
    (mapping : dict string (dict nat (list nat)))
  : result (dict string ShardingSpec.t) :=
  for_each (fun '(op_data_name, dim_partition_dict) results =>
              op_data ← lookup_item (op_data self) op_data_name;
              let sharding_spec :=
                {| ShardingSpec.device_mesh := device_mesh self;
                   ShardingSpec.entire_shape := OperationData.logical_shape op_data;
                   ShardingSpec.dim_partition_dict := dim_partition_dict |} in
              mret (setitem results op_data_name sharding_spec))
           (items mapping) [].

(** [get_communication_spec]: the comm spec factory.  The method assigns to
    [sharding_spec.device_mesh], so the result pairs the argument object as
    the call leaves it with the comm spec, which refers to that same
    object. *)
Definition get_communication_spec (self : t) (sharding_spec : ShardingSpec.t)
    (communication_pattern : CollectiveCommPattern)
    (logical_process_axis : process_axis)
  : ShardingSpec.t * CommSpec.t :=
  let '(sharding_spec, logical_process_axis) :=
    if isinstance_list logical_process_axis
       && Nat.eqb (len logical_process_axis) 2
    then (ShardingSpec.set_device_mesh
            (DeviceMesh.flatten (ShardingSpec.device_mesh sharding_spec))
            sharding_spec,
          AxisInt 0)
    else (sharding_spec, logical_process_axis) in
  (sharding_spec,
   {| CommSpec.comm_pattern := communication_pattern;
      CommSpec.sharding_spec := sharding_spec;
      CommSpec.logical_process_axis := logical_process_axis |}).

(** The closure [_compute_and_add] of [update_communication_cost].  Its
    parameter [data] is never read: the element type is taken from
    [operand], the loop variable of the enclosing method.  [comm_cost] is
    the accumulator the closure adds to. *)
Definition _compute_and_add `{CommCostModel} (operand : OperationData.t)
    (data : OperationData.t) (comm_spec : CommSpec.t)
    (comm_cost : TrainCycleItem.t) : result TrainCycleItem.t :=
  let num_ele_in_comm := get_comm_cost comm_spec in
  let dtype := torch.tensor_dtype (OperationData.data operand) in
  let size_per_elem_bytes := torch.element_size dtype in
  let cost := (size_per_elem_bytes * num_ele_in_comm)%Z in
  match CommSpec.comm_pattern comm_spec with
  | REDUCE_FWD_IDENTITY_BWD => mret (TrainCycleItem.add_fwd cost comm_cost)
  | IDENTITY_FWD_ALLREDUCE_BWD => mret (TrainCycleItem.add_fwd cost comm_cost)
  | OTHER_PATTERN _ => Err ValueError
  end.

(** The loop of [update_communication_cost]:
    [for operand, comm_spec in strategy.communication_actions].  The loop
    walks the dictionary itself, not its [items()], so each step receives a
    key and unpacks it into the two loop variables. *)
Definition comm_cost_loop `{CommCostModel}
    (communication_actions : dict OperationData.t CommSpec.t)
    (comm_cost : TrainCycleItem.t) : result TrainCycleItem.t :=
  for_each (fun key comm_cost =>
              '(operand, comm_spec) ← unpack_pair key;
              _compute_and_add operand operand comm_spec comm_cost)
           (iter communication_actions) comm_cost.

(** [update_communication_cost].  The method writes to [strategy] in place
    and returns it: the first component is what the call returns or raises,
    the second is the strategy object as the call leaves it. *)
Definition update_communication_cost `{CommCostModel} (self : t)
    (strategy : ShardingStrategy_V2.t)
  : result ShardingStrategy_V2.t * ShardingStrategy_V2.t :=
  let comm_cost := {| TrainCycleItem.fwd := 0; TrainCycleItem.bwd := 0 |} in
  let looped :=
    match ShardingStrategy_V2.communication_actions strategy with
    | Some actions => comm_cost_loop actions comm_cost
    | None => Ok comm_cost
    end in
  match looped with
  | Ok comm_cost =>
      let strategy :=
        ShardingStrategy_V2.set_communication_cost (Some comm_cost) strategy in
      (Ok strategy, strategy)
  | Err e => (Err e, strategy)
  end.

(** [_compute_size_in_bytes]: the size of one operand under a strategy. *)
Definition _compute_size_in_bytes (self : t) (strategy : ShardingStrategy_V2.t)
    (key : string) : result Z :=
  op_data ← lookup_item (op_data self) key;
  sharding_spec ← getitem (ShardingStrategy_V2.sharding_specs strategy) op_data;
  sharded_shape ← ShardingSpec.get_sharded_shape_per_device sharding_spec;
  op_data' ← lookup_item (StrategyGenerator_V2.op_data self) key;
  let dtype := torch.tensor_dtype (OperationData.data op_data') in
  let size_per_elem_bytes := torch.element_size dtype in
  product ← reduce_mul sharded_shape;
  mret (product * size_per_elem_bytes)%Z.

End StrategyGenerator_V2.

(** ** Layout invariants and the closed form of the per-device shape *)

(** Product of the sizes of the mesh axes in [axes], for axes the mesh has. *)
Definition axes_product (mesh_shape : list Z) (axes : list nat) : Z :=
  foldr (fun a p => (mesh_shape !!! a * p)%Z) 1%Z axes.

(** The data model's invariant on a layout: every partitioned dimension is a
    dimension of the logical shape, every assigned axis is an axis of the
    mesh, and a dimension is partitioned at most once. *)
Definition well_indexed (mesh_shape : list Z) (shape : list Z)
    (dim_partition_dict : dict nat (list nat)) : Prop :=
  NoDup dim_partition_dict.*1 ∧
  Forall (fun '(dim, axes) =>
            dim < length shape ∧ Forall (fun a => a < length mesh_shape) axes)
         dim_partition_dict.

(** Every partitioned dimension is a multiple of its number of partitions. *)
Definition divides_evenly (mesh_shape : list Z) (shape : list Z)
    (dim_partition_dict : dict nat (list nat)) : Prop :=
  Forall (fun '(dim, axes) =>
            ((shape !!! dim) mod axes_product mesh_shape axes)%Z = 0%Z)
         dim_partition_dict.

(** The shape in which each partitioned dimension is divided by its number
    of partitions and every other dimension is kept. *)
Definition divided_shape (mesh_shape : list Z) (shape : list Z)
    (dim_partition_dict : dict nat (list nat)) : list Z :=
  imap (fun i d =>
          match dict_get dim_partition_dict i with
          | Some axes => (d / axes_product mesh_shape axes)%Z
          | None => d
          end) shape.

(** The cost item a call starts from, [TrainCycleItem(fwd=0, bwd=0)]. *)
Definition zero_cost : TrainCycleItem.t :=
  {| TrainCycleItem.fwd := 0; TrainCycleItem.bwd := 0 |}.


(** ** A linear operation on a 2 x 4 mesh, used to run the methods *)

Definition mesh_2x4 : DeviceMesh.t := {| DeviceMesh.mesh_shape := [2; 4]%Z |}.
Definition mesh_4x8 : DeviceMesh.t := {| DeviceMesh.mesh_shape := [4; 8]%Z |}.

Definition linear_input : OperationData.t :=
  {| OperationData.name := "input";
     OperationData.type := INPUT;
     OperationData.data := {| torch.tensor_dtype := torch.float32 |};
     OperationData.logical_shape := [8; 16]%Z |}.

Definition linear_weight : OperationData.t :=
  {| OperationData.name := "weight";
     OperationData.type := PARAM;
     OperationData.data := {| torch.tensor_dtype := torch.float32 |};
     OperationData.logical_shape := [16; 32]%Z |}.

Definition linear_output : OperationData.t :=
  {| OperationData.name := "output";
     OperationData.type := OUTPUT;
     OperationData.data := {| torch.tensor_dtype := torch.float32 |};
     OperationData.logical_shape := [8; 32]%Z |}.

(** A zero-dimensional operand, such as a loss value. *)
Definition scalar_loss : OperationData.t :=
  {| OperationData.name := "loss";
     OperationData.type := OUTPUT;
     OperationData.data := {| torch.tensor_dtype := torch.float32 |};
     OperationData.logical_shape := [] |}.

Definition linear_generator : StrategyGenerator_V2.t :=
  {| StrategyGenerator_V2.op_data :=
       <["input" := linear_input]>
         (<["weight" := linear_weight]>
            (<["output" := linear_output]>
               (<["loss" := scalar_loss]> ∅)));
     StrategyGenerator_V2.device_mesh := mesh_2x4 |}.

(** Every action communicates 1024 elements. *)
Definition flat_volume : CommCostModel := fun _ => 1024%Z.

(** The input sharded along its second dimension over mesh axis 1:
    per-device shape [8, 4]. *)
Definition input_layout : ShardingSpec.t :=
  {| ShardingSpec.device_mesh := mesh_2x4;
     ShardingSpec.entire_shape := [8; 16]%Z;
     ShardingSpec.dim_partition_dict := [(1, [1])] |}.

Definition output_layout : ShardingSpec.t :=
  {| ShardingSpec.device_mesh := mesh_2x4;
     ShardingSpec.entire_shape := [8; 32]%Z;
     ShardingSpec.dim_partition_dict := [(0, [0])] |}.

Definition loss_layout : ShardingSpec.t :=
  {| ShardingSpec.device_mesh := mesh_2x4;
     ShardingSpec.entire_shape := [];
     ShardingSpec.dim_partition_dict := [] |}.

(** A dimension of size 10 over one axis of size 3, and of size 5. *)
Definition ten_over (n : Z) : ShardingSpec.t :=
  {| ShardingSpec.device_mesh := {| DeviceMesh.mesh_shape := [n] |};
     ShardingSpec.entire_shape := [10]%Z;
     ShardingSpec.dim_partition_dict := [(0, [0])] |}.

Definition reduce_output : CommSpec.t :=
  {| CommSpec.comm_pattern := REDUCE_FWD_IDENTITY_BWD;
     CommSpec.sharding_spec := output_layout;
     CommSpec.logical_process_axis := AxisInt 1 |}.

Definition allreduce_input : CommSpec.t :=
  {| CommSpec.comm_pattern := IDENTITY_FWD_ALLREDUCE_BWD;
     CommSpec.sharding_spec := input_layout;
     CommSpec.logical_process_axis := AxisInt 0 |}.

Definition gather_output : CommSpec.t :=
  {| CommSpec.comm_pattern := OTHER_PATTERN "GATHER_FWD_SPLIT_BWD";
     CommSpec.sharding_spec := output_layout;
     CommSpec.logical_process_axis := AxisInt 1 |}.

(** A strategy as [get_sharding_strategy] assembles it, with the given
    layouts and actions and no cost yet. *)
Definition strategy_with (layouts : dict OperationData.t ShardingSpec.t)
    (actions : option (dict OperationData.t CommSpec.t))
  : ShardingStrategy_V2.t :=
  {| ShardingStrategy_V2.name := "S0S1 = S0R x RS1";
     ShardingStrategy_V2.sharding_specs := layouts;
     ShardingStrategy_V2.communication_actions := actions;
     ShardingStrategy_V2.communication_cost := None;
     ShardingStrategy_V2.compute_cost := None;
     ShardingStrategy_V2.memory_cost := None |}.

Definition linear_layouts : dict OperationData.t ShardingSpec.t :=
  [(linear_input, input_layout); (linear_output, output_layout);
   (scalar_loss, loss_layout)].


Definition strategy_one_action : ShardingStrategy_V2.t :=
  strategy_with linear_layouts (Some [(linear_output, reduce_output)]).

Definition strategy_two_actions : ShardingStrategy_V2.t :=
  strategy_with linear_layouts
    (Some [(linear_output, reduce_output); (linear_input, allreduce_input)]).

Definition strategy_unknown_pattern : ShardingStrategy_V2.t :=
  strategy_with linear_layouts (Some [(linear_output, gather_output)]).

Definition strategy_without_layouts : ShardingStrategy_V2.t :=
  strategy_with [] None.

(** A strategy whose layout for the input cannot be divided evenly. *)
Definition strategy_ten_over_three : ShardingStrategy_V2.t :=
  strategy_with [(linear_input, ten_over 3)] None.

(** A generator in which two names denote the same operand, as for an
    operation applied to one tensor twice. *)
Definition aliased_generator : StrategyGenerator_V2.t :=
  {| StrategyGenerator_V2.op_data :=
       <["input" := linear_input]> (<["other" := linear_input]> ∅);
     StrategyGenerator_V2.device_mesh := mesh_2x4 |}.

(** The strategy without actions, as it is once a cost of 4096 bytes forward
    has been stored on it. *)
Definition strategy_priced_before : ShardingStrategy_V2.t :=
  {| ShardingStrategy_V2.name := "S0S1 = S0R x RS1";
     ShardingStrategy_V2.sharding_specs := linear_layouts;
     ShardingStrategy_V2.communication_actions := None;
     ShardingStrategy_V2.communication_cost :=
       Some {| TrainCycleItem.fwd := 4096; TrainCycleItem.bwd := 0 |};
     ShardingStrategy_V2.compute_cost := None;
     ShardingStrategy_V2.memory_cost := None |}.

(** A layout of the output on a 4 x 8 mesh. *)
Definition output_layout_4x8 : ShardingSpec.t :=
  {| ShardingSpec.device_mesh := mesh_4x8;
     ShardingSpec.entire_shape := [8; 32]%Z;
     ShardingSpec.dim_partition_dict := [(0, [0])] |}.

(** * Properties *)

(** ** The runtime model *)

Lemma fold_left_mul_foldr (xs : list Z) (x : Z) :
  fold_left Z.mul xs x = (x * foldr Z.mul 1 xs)%Z.
Proof.
  revert x; induction xs as [|y xs IH]; intros x; simpl.
  - lia.
  - rewrite IH. lia.
Qed.

Lemma reduce_mul_cons (x : Z) (xs : list Z) :
  reduce_mul (x :: xs) = Ok (foldr Z.mul 1%Z (x :: xs)).
Proof. unfold reduce_mul. by rewrite fold_left_mul_foldr. Qed.

Lemma dict_get_None {K V} `{EqDecision K} (d : dict K V) (k : K) :
  k ∉ d.*1 → dict_get d k = None.
Proof.
  induction d as [|[k' v] d IH]; simpl; [done|].
  intros Hk. apply not_elem_of_cons in Hk as [Hne Hk].
  case_decide; [congruence | by apply IH].
Qed.

Lemma lookup_item_Some {V} (m : gmap string V) (k : string) (v : V) :
  m !! k = Some v → lookup_item m k = Ok v.
Proof. unfold lookup_item. by intros ->. Qed.

Lemma lookup_item_None {V} (m : gmap string V) (k : string) :
  m !! k = None → lookup_item m k = Err KeyError.
Proof. unfold lookup_item. by intros ->. Qed.

(** A loop whose body looks each key up in [m] and cannot fail otherwise
    returns when every key is in [m] and raises [KeyError] at the first key
    that is not. *)
Lemma for_each_lookup_item {V W S} (m : gmap string W)
    (step : string → V → W → S → S) (l : list (string * V)) (acc : S) :
  (Forall (fun kv => is_Some (m !! kv.1)) l →
   ∃ r, for_each (fun '(k, v) acc => w ← lookup_item m k; mret (step k v w acc))
          l acc = Ok r) ∧
  (Exists (fun kv => m !! kv.1 = None) l →
   for_each (fun '(k, v) acc => w ← lookup_item m k; mret (step k v w acc))
     l acc = Err KeyError).
Proof.
  revert acc; induction l as [|[k v] l IH]; intros acc; split.
  - intros _. by eexists.
  - intros H; inversion H.
  - intros Hall. apply Forall_cons in Hall as [[w Hw] Hall].
    simpl in *. rewrite (lookup_item_Some _ _ _ Hw). simpl.
    by apply IH.
  - intros Hex. simpl.
    destruct (m !! k) as [w|] eqn:Hk.
    + rewrite (lookup_item_Some _ _ _ Hk). simpl.
      apply Exists_cons in Hex as [Hex|Hex]; [simpl in Hex; congruence|].
      by apply IH.
    + by rewrite (lookup_item_None _ _ Hk).
Qed.

(** ** The communication-cost closure *)

Section CommunicationCost.
Context `{CommCostModel}.

(** For the two patterns the closure knows, the action's element count
    times the byte size of the operand's element type is added to the
    forward total, and the backward total is kept. *)
Lemma compute_and_add_supported operand data comm_spec comm_cost :
  CommSpec.comm_pattern comm_spec = REDUCE_FWD_IDENTITY_BWD ∨
  CommSpec.comm_pattern comm_spec = IDENTITY_FWD_ALLREDUCE_BWD →
  StrategyGenerator_V2._compute_and_add operand data comm_spec comm_cost =
  Ok {| TrainCycleItem.fwd :=
          (TrainCycleItem.fwd comm_cost +
           torch.element_size (torch.tensor_dtype (OperationData.data operand))
           * get_comm_cost comm_spec)%Z;
        TrainCycleItem.bwd := TrainCycleItem.bwd comm_cost |}.
Proof.
  unfold StrategyGenerator_V2._compute_and_add.
  by intros [-> | ->].
Qed.

(** Any other pattern raises [ValueError]. *)
Lemma compute_and_add_unsupported operand data comm_spec comm_cost member :
  CommSpec.comm_pattern comm_spec = OTHER_PATTERN member →
  StrategyGenerator_V2._compute_and_add operand data comm_spec comm_cost =
  Err ValueError.
Proof. unfold StrategyGenerator_V2._compute_and_add. by intros ->. Qed.

(** ** The loop over the communication actions *)

Lemma comm_cost_loop_empty comm_cost :
  StrategyGenerator_V2.comm_cost_loop [] comm_cost = Ok comm_cost.
Proof. reflexivity. Qed.

(** The first key the loop meets cannot be unpacked into
    [(operand, comm_spec)]: the loop raises before the closure runs. *)
Lemma comm_cost_loop_nonempty operand comm_spec actions comm_cost :
  StrategyGenerator_V2.comm_cost_loop ((operand, comm_spec) :: actions) comm_cost
  = Err TypeError.
Proof. reflexivity. Qed.

(** A call returns exactly when there is no action to walk, and the cost it
    then stores is the zero item; any entry of the mapping makes it raise,
    always [TypeError] and never [ValueError], with the strategy left as it
    was. *)
Lemma update_communication_cost_outcomes self strategy :
  let outcome := StrategyGenerator_V2.update_communication_cost self strategy in
  ((∃ returned, outcome.1 = Ok returned) ↔
   (ShardingStrategy_V2.communication_actions strategy = None ∨
    ShardingStrategy_V2.communication_actions strategy = Some [])) ∧
  (∀ returned,
     outcome.1 = Ok returned →
     outcome.2 = returned ∧
     ShardingStrategy_V2.communication_cost returned
     = Some {| TrainCycleItem.fwd := 0; TrainCycleItem.bwd := 0 |}) ∧
  (∀ e,
     outcome.1 = Err e →
     e = TypeError ∧ outcome.2 = strategy ∧
     ∃ operand comm_spec actions,
       ShardingStrategy_V2.communication_actions strategy
       = Some ((operand, comm_spec) :: actions)).
Proof.
  unfold StrategyGenerator_V2.update_communication_cost.
  destruct (ShardingStrategy_V2.communication_actions strategy)
    as [[|[operand comm_spec] actions]|]; simpl.
  - split; [|split].
    + split; [by right | by eexists].
    + by intros returned [= <-].
    + done.
  - split; [|split].
    + split; [by intros [returned ?] | by intros [?|?]].
    + done.
    + intros e [= <-]. repeat split. by exists operand, comm_spec, actions.
  - split; [|split].
    + split; [by left | by eexists].
    + by intros returned [= <-].
    + done.
Qed.

End CommunicationCost.

Lemma update_communication_cost_outcomes_witness :
  ((StrategyGenerator_V2.update_communication_cost (H := flat_volume)
      linear_generator strategy_priced_before).2
   = ShardingStrategy_V2.set_communication_cost (Some zero_cost)
       strategy_priced_before ∧
   ShardingStrategy_V2.communication_cost
     (ShardingStrategy_V2.set_communication_cost (Some zero_cost)
        strategy_priced_before)
   = Some {| TrainCycleItem.fwd := 0; TrainCycleItem.bwd := 0 |}) ∧
  (TypeError = TypeError ∧
   (StrategyGenerator_V2.update_communication_cost (H := flat_volume)
      linear_generator strategy_unknown_pattern).2
   = strategy_unknown_pattern ∧
   ∃ operand comm_spec actions,
     ShardingStrategy_V2.communication_actions strategy_unknown_pattern
     = Some ((operand, comm_spec) :: actions)).
Proof.
  split.
  - apply (proj1 (proj2 (update_communication_cost_outcomes (H := flat_volume)
                           linear_generator strategy_priced_before))).
    reflexivity.
  - apply (proj2 (proj2 (update_communication_cost_outcomes (H := flat_volume)
                           linear_generator strategy_unknown_pattern))).
    reflexivity.
Defined.

Lemma compute_and_add_supported_witness :
  StrategyGenerator_V2._compute_and_add (H := flat_volume)
    linear_input linear_output allreduce_input
    {| TrainCycleItem.fwd := 4096; TrainCycleItem.bwd := 7 |}
  = Ok {| TrainCycleItem.fwd := 4096 + 4 * 1024; TrainCycleItem.bwd := 7 |}.
Proof.
  apply (compute_and_add_supported (H := flat_volume)
           linear_input linear_output allreduce_input
           {| TrainCycleItem.fwd := 4096; TrainCycleItem.bwd := 7 |}).
  right. reflexivity.
Defined.

Lemma compute_and_add_unsupported_witness :
  StrategyGenerator_V2._compute_and_add (H := flat_volume)
    linear_output linear_output gather_output zero_cost
  = Err ValueError.
Proof.
  apply (compute_and_add_unsupported (H := flat_volume)
           linear_output linear_output gather_output zero_cost
           "GATHER_FWD_SPLIT_BWD").
  reflexivity.
Defined.

(** ** [update_communication_cost] *)

(** C1. The cost of every (operand, action) pair should be added to the
    forward total.  On a strategy with one [REDUCE_FWD_IDENTITY_BWD] action
    over a [float32] operand and 1024 communicated elements the closure
    prices the pair at 4 * 1024 = 4096 bytes, yet the method itself raises
    [TypeError] at the first key of the mapping and leaves the strategy
    without a communication cost: the loop walks the mapping's keys where
    it means to walk its items. *)
Theorem update_communication_cost_single_action :
  StrategyGenerator_V2._compute_and_add (H := flat_volume)
    linear_output linear_output reduce_output zero_cost
  = Ok {| TrainCycleItem.fwd := 4096; TrainCycleItem.bwd := 0 |} ∧
  StrategyGenerator_V2.update_communication_cost (H := flat_volume)
    linear_generator strategy_one_action
  = (Err TypeError, strategy_one_action) ∧
  ShardingStrategy_V2.communication_cost strategy_one_action = None.
Proof. repeat split. Qed.

(** C2. The forward cost of two actions should be the sum of the costs of
    each.  With a [REDUCE_FWD_IDENTITY_BWD] and an
    [IDENTITY_FWD_ALLREDUCE_BWD] action the closure, run on the two pairs in
    either order, accumulates 4096 + 4096 = 8192 bytes, yet the method
    raises [TypeError] at the first key and produces no forward cost. *)
Theorem update_communication_cost_two_actions :
  (StrategyGenerator_V2._compute_and_add (H := flat_volume)
     linear_output linear_output reduce_output zero_cost
   ≫= StrategyGenerator_V2._compute_and_add (H := flat_volume)
        linear_input linear_input allreduce_input)
  = Ok {| TrainCycleItem.fwd := 8192; TrainCycleItem.bwd := 0 |} ∧
  (StrategyGenerator_V2._compute_and_add (H := flat_volume)
     linear_input linear_input allreduce_input zero_cost
   ≫= StrategyGenerator_V2._compute_and_add (H := flat_volume)
        linear_output linear_output reduce_output)
  = Ok {| TrainCycleItem.fwd := 8192; TrainCycleItem.bwd := 0 |} ∧
  StrategyGenerator_V2.update_communication_cost (H := flat_volume)
    linear_generator strategy_two_actions
  = (Err TypeError, strategy_two_actions).
Proof. repeat split. Qed.

(** C3. An action of a pattern outside the two supported ones should raise
    [ValueError] (the spec's UnsupportedCommPattern) and leave the
    communication cost as it was.  The closure does raise [ValueError] on
    such a pair, and the strategy is left as it was, but the method raises
    [TypeError] at the first key, before the pattern is looked at. *)
Theorem update_communication_cost_unknown_pattern :
  StrategyGenerator_V2._compute_and_add (H := flat_volume)
    linear_output linear_output gather_output zero_cost
  = Err ValueError ∧
  StrategyGenerator_V2.update_communication_cost (H := flat_volume)
    linear_generator strategy_unknown_pattern
  = (Err TypeError, strategy_unknown_pattern).
Proof. repeat split. Qed.




(** C8. A call writes the communication cost and nothing else: the name,
    the layouts, the actions, the compute cost and the memory cost of the
    strategy are afterwards what they were, and the strategy returned is the
    one passed in.  The call does not read the other two accumulators
    either, so writing them before the call or after it gives the same
    strategy: the phases may run in any order. *)
Theorem update_communication_cost_frame `{CommCostModel}
    (self : StrategyGenerator_V2.t) (strategy : ShardingStrategy_V2.t) :
  let outcome := StrategyGenerator_V2.update_communication_cost self strategy in
  ShardingStrategy_V2.name outcome.2 = ShardingStrategy_V2.name strategy ∧
  ShardingStrategy_V2.sharding_specs outcome.2
  = ShardingStrategy_V2.sharding_specs strategy ∧
  ShardingStrategy_V2.communication_actions outcome.2
  = ShardingStrategy_V2.communication_actions strategy ∧
  ShardingStrategy_V2.compute_cost outcome.2
  = ShardingStrategy_V2.compute_cost strategy ∧
  ShardingStrategy_V2.memory_cost outcome.2
  = ShardingStrategy_V2.memory_cost strategy ∧
  (∀ returned, outcome.1 = Ok returned → returned = outcome.2) ∧
  (∀ e, outcome.1 = Err e → outcome.2 = strategy) ∧
  (∀ c,
     StrategyGenerator_V2.update_communication_cost self
       (ShardingStrategy_V2.set_compute_cost c strategy)
     = (ShardingStrategy_V2.set_compute_cost c <$> outcome.1,
        ShardingStrategy_V2.set_compute_cost c outcome.2)) ∧
  (∀ c,
     StrategyGenerator_V2.update_communication_cost self
       (ShardingStrategy_V2.set_memory_cost c strategy)
     = (ShardingStrategy_V2.set_memory_cost c <$> outcome.1,
        ShardingStrategy_V2.set_memory_cost c outcome.2)).
Proof.
  unfold StrategyGenerator_V2.update_communication_cost; simpl.
  destruct (match ShardingStrategy_V2.communication_actions strategy with
            | Some actions => _
            | None => _
            end) as [comm_cost|e]; simpl.
  - repeat split; try done. by intros returned [= <-].
  - repeat split; done.
Qed.

(** C10. Without a communication-action mapping the call raises nothing
    and returns the strategy passed in, whose communication cost is now the
    zero cost item, forward 0 and backward 0, and whose other fields are
    what they were. *)
Theorem update_communication_cost_no_actions `{CommCostModel}
    (self : StrategyGenerator_V2.t) (strategy : ShardingStrategy_V2.t) :
  ShardingStrategy_V2.communication_actions strategy = None →
  ∃ returned,
    StrategyGenerator_V2.update_communication_cost self strategy
    = (Ok returned, returned) ∧
    ShardingStrategy_V2.communication_cost returned
    = Some {| TrainCycleItem.fwd := 0; TrainCycleItem.bwd := 0 |} ∧
    ShardingStrategy_V2.name returned = ShardingStrategy_V2.name strategy ∧
    ShardingStrategy_V2.sharding_specs returned
    = ShardingStrategy_V2.sharding_specs strategy ∧
    ShardingStrategy_V2.communication_actions returned = None ∧
    ShardingStrategy_V2.compute_cost returned
    = ShardingStrategy_V2.compute_cost strategy ∧
    ShardingStrategy_V2.memory_cost returned
    = ShardingStrategy_V2.memory_cost strategy ∧
    returned
    = ShardingStrategy_V2.set_communication_cost
        (Some {| TrainCycleItem.fwd := 0; TrainCycleItem.bwd := 0 |}) strategy.
Proof.
  intros Hnone. unfold StrategyGenerator_V2.update_communication_cost.
  rewrite Hnone. eexists. split; [reflexivity|]. simpl.
  by repeat split.
Qed.

Lemma update_communication_cost_no_actions_witness :
  ∃ returned,
    StrategyGenerator_V2.update_communication_cost (H := flat_volume)
      linear_generator strategy_priced_before
    = (Ok returned, returned) ∧
    ShardingStrategy_V2.communication_cost returned
    = Some {| TrainCycleItem.fwd := 0; TrainCycleItem.bwd := 0 |} ∧
    ShardingStrategy_V2.name returned
    = ShardingStrategy_V2.name strategy_priced_before ∧
    ShardingStrategy_V2.sharding_specs returned
    = ShardingStrategy_V2.sharding_specs strategy_priced_before ∧
    ShardingStrategy_V2.communication_actions returned = None ∧
    ShardingStrategy_V2.compute_cost returned
    = ShardingStrategy_V2.compute_cost strategy_priced_before ∧
    ShardingStrategy_V2.memory_cost returned
    = ShardingStrategy_V2.memory_cost strategy_priced_before ∧
    returned
    = ShardingStrategy_V2.set_communication_cost
        (Some {| TrainCycleItem.fwd := 0; TrainCycleItem.bwd := 0 |})
        strategy_priced_before.
Proof.
  apply (update_communication_cost_no_actions (H := flat_volume)
           linear_generator strategy_priced_before).
  reflexivity.
Defined.

(** ** The per-device shape *)

Lemma shard_partitions_in_range (mesh_shape : list Z) (axes : list nat) :
  Forall (fun a => a < length mesh_shape) axes →
  ShardingSpec.shard_partitions mesh_shape axes
  = Ok (axes_product mesh_shape axes).
Proof.
  induction axes as [|a axes IH]; intros Hin; [done|].
  apply Forall_cons in Hin as [Ha Hin]. simpl.
  rewrite (list_lookup_lookup_total_lt mesh_shape a Ha).
  by rewrite (IH Hin).
Qed.

Lemma shard_dim_in_range (mesh_shape : list Z) (dim : nat) (axes : list nat)
    (shape : list Z) :
  dim < length shape →
  Forall (fun a => a < length mesh_shape) axes →
  ShardingSpec.shard_dim mesh_shape dim axes shape =
  if decide (((shape !!! dim) mod axes_product mesh_shape axes)%Z = 0%Z)
  then Ok (<[dim := ((shape !!! dim) / axes_product mesh_shape axes)%Z]> shape)
  else Err NonDivisibleShard.
Proof.
  intros Hdim Haxes. unfold ShardingSpec.shard_dim.
  rewrite (shard_partitions_in_range _ _ Haxes). simpl.
  by rewrite (list_lookup_lookup_total_lt shape dim Hdim).
Qed.

Lemma well_indexed_cons mesh_shape shape dim axes rest :
  well_indexed mesh_shape shape ((dim, axes) :: rest) →
  (dim ∉ rest.*1) ∧ (dim < length shape) ∧
  Forall (fun a => a < length mesh_shape) axes ∧
  ∀ x, well_indexed mesh_shape (<[dim := x]> shape) rest.
Proof.
  intros [Hnodup Hall]. simpl in Hnodup.
  apply NoDup_cons in Hnodup as [Hfresh Hnodup].
  apply Forall_cons in Hall as [[Hdim Haxes] Hall].
  repeat split; try done.
  eapply Forall_impl; [exact Hall|].
  intros [dim' axes']. by rewrite length_insert.
Qed.

Lemma divides_evenly_insert mesh_shape shape dim x rest :
  dim ∉ rest.*1 →
  divides_evenly mesh_shape (<[dim := x]> shape) rest
  ↔ divides_evenly mesh_shape shape rest.
Proof.
  unfold divides_evenly.
  induction rest as [|[dim' axes'] rest IH]; intros Hfresh; [done|].
  simpl in Hfresh. apply not_elem_of_cons in Hfresh as [Hne Hfresh].
  rewrite !Forall_cons, (IH Hfresh).
  by rewrite list_lookup_total_insert_ne.
Qed.

Lemma divides_evenly_or_not mesh_shape shape dim_partition_dict :
  divides_evenly mesh_shape shape dim_partition_dict ∨
  ¬ divides_evenly mesh_shape shape dim_partition_dict.
Proof.
  unfold divides_evenly.
  induction dim_partition_dict as [|[dim axes] rest [IH|IH]].
  - left. by apply Forall_nil.
  - destruct (decide (((shape !!! dim) mod axes_product mesh_shape axes)%Z
                      = 0%Z)) as [Hhead|Hhead].
    + left. by apply Forall_cons.
    + right. intros Hall. by apply Forall_cons in Hall as [? _].
  - right. intros Hall. by apply Forall_cons in Hall as [_ ?].
Qed.

Lemma divided_shape_nil mesh_shape shape :
  divided_shape mesh_shape shape [] = shape.
Proof.
  unfold divided_shape. simpl.
  apply list_eq; intros i. rewrite list_lookup_imap.
  by destruct (shape !! i).
Qed.

Lemma divided_shape_insert mesh_shape shape dim axes rest :
  dim ∉ rest.*1 → dim < length shape →
  divided_shape mesh_shape
    (<[dim := ((shape !!! dim) / axes_product mesh_shape axes)%Z]> shape) rest
  = divided_shape mesh_shape shape ((dim, axes) :: rest).
Proof.
  intros Hfresh Hdim. unfold divided_shape.
  apply list_eq; intros i. rewrite !list_lookup_imap. simpl.
  destruct (decide (dim = i)) as [<-|Hne].
  - rewrite list_lookup_insert_eq by done.
    rewrite (list_lookup_lookup_total_lt shape dim Hdim). simpl.
    by rewrite (dict_get_None rest dim Hfresh).
  - by rewrite list_lookup_insert_ne.
Qed.

(** The loop of the derivation, in closed form. *)
Lemma shard_loop_closed_form mesh_shape dim_partition_dict shape :
  well_indexed mesh_shape shape dim_partition_dict →
  (divides_evenly mesh_shape shape dim_partition_dict →
   for_each (fun '(dim, axes) shape =>
               ShardingSpec.shard_dim mesh_shape dim axes shape)
     dim_partition_dict shape
   = Ok (divided_shape mesh_shape shape dim_partition_dict)) ∧
  (¬ divides_evenly mesh_shape shape dim_partition_dict →
   for_each (fun '(dim, axes) shape =>
               ShardingSpec.shard_dim mesh_shape dim axes shape)
     dim_partition_dict shape
   = Err NonDivisibleShard).
Proof.
  revert shape.
  induction dim_partition_dict as [|[dim axes] rest IH]; intros shape Hwell.
  - split.
    + intros _. simpl. by rewrite divided_shape_nil.
    + intros Hnot. destruct Hnot. by apply Forall_nil.
  - apply well_indexed_cons in Hwell as (Hfresh & Hdim & Haxes & Hrest).
    simpl. rewrite (shard_dim_in_range _ _ _ _ Hdim Haxes).
    unfold divides_evenly. rewrite Forall_cons.
    case_decide as Hhead; simpl.
    + destruct (IH _ (Hrest ((shape !!! dim) / axes_product mesh_shape axes)%Z))
        as [IHok IHerr].
      split.
      * intros [_ Hall].
        rewrite IHok by by apply divides_evenly_insert.
        by rewrite divided_shape_insert.
      * intros Hnot. apply IHerr.
        rewrite divides_evenly_insert by done.
        intros Hall. by apply Hnot.
    + split; [by intros [? _]|done].
Qed.

(** C9. On a layout that meets the data model's invariant, the derived
    per-device shape is the logical shape with every partitioned dimension
    divided by the product of the sizes of its axes when each of these
    divisions is exact, and the derivation fails with [NonDivisibleShard]
    when one is not.  A shape that is returned is never rounded: each of its
    partitioned dimensions times its number of partitions is the logical
    dimension.  A failure of the derivation is the failure of
    [_compute_size_in_bytes].  A dimension of 10 over an axis of size 3
    fails, over an axis of size 5 it gives 2. *)
Theorem get_sharded_shape_per_device_exact :
  (∀ s : ShardingSpec.t,
     well_indexed (DeviceMesh.mesh_shape (ShardingSpec.device_mesh s))
       (ShardingSpec.entire_shape s) (ShardingSpec.dim_partition_dict s) →
     (divides_evenly (DeviceMesh.mesh_shape (ShardingSpec.device_mesh s))
        (ShardingSpec.entire_shape s) (ShardingSpec.dim_partition_dict s) →
      ShardingSpec.get_sharded_shape_per_device s
      = Ok (divided_shape (DeviceMesh.mesh_shape (ShardingSpec.device_mesh s))
              (ShardingSpec.entire_shape s) (ShardingSpec.dim_partition_dict s)))
     ∧
     (¬ divides_evenly (DeviceMesh.mesh_shape (ShardingSpec.device_mesh s))
          (ShardingSpec.entire_shape s) (ShardingSpec.dim_partition_dict s) →
      ShardingSpec.get_sharded_shape_per_device s = Err NonDivisibleShard)
     ∧
     (∀ sharded dim axes,
        ShardingSpec.get_sharded_shape_per_device s = Ok sharded →
        dict_get (ShardingSpec.dim_partition_dict s) dim = Some axes →
        ((sharded !!! dim)
         * axes_product (DeviceMesh.mesh_shape (ShardingSpec.device_mesh s)) axes
         = ShardingSpec.entire_shape s !!! dim)%Z)) ∧
  (∀ self strategy key op_data s e,
     StrategyGenerator_V2.op_data self !! key = Some op_data →
     dict_get (ShardingStrategy_V2.sharding_specs strategy) op_data = Some s →
     ShardingSpec.get_sharded_shape_per_device s = Err e →
     StrategyGenerator_V2._compute_size_in_bytes self strategy key = Err e) ∧
  ShardingSpec.get_sharded_shape_per_device (ten_over 3) = Err NonDivisibleShard ∧
  ShardingSpec.get_sharded_shape_per_device (ten_over 5) = Ok [2%Z].
Proof.
  split; [|split; [|by split]].
  - intros [[mesh_shape] shape dpd]; simpl. intros Hwell.
    unfold ShardingSpec.get_sharded_shape_per_device, items; simpl.
    destruct (shard_loop_closed_form mesh_shape dpd shape Hwell) as [Hok Herr].
    split; [done|]. split; [done|].
    intros sharded dim axes Hsharded Hget.
    assert (Heven : divides_evenly mesh_shape shape dpd).
    { destruct (divides_evenly_or_not mesh_shape shape dpd) as [?|Hnot]; [done|].
      rewrite (Herr Hnot) in Hsharded. discriminate. }
    rewrite (Hok Heven) in Hsharded. injection Hsharded as <-.
    assert (Hin : (dim, axes) ∈ dpd).
    { clear -Hget. induction dpd as [|[dim' axes'] dpd IH]; [done|].
      simpl in Hget. case_decide as Heq.
      - injection Hget as <-. subst. apply list_elem_of_here.
      - apply list_elem_of_further. by apply IH. }
    destruct Hwell as [_ Hall].
    pose proof (proj1 (Forall_forall _ _) Hall _ Hin) as [Hdim _].
    pose proof (proj1 (Forall_forall _ _) Heven _ Hin) as Hmod.
    simpl in Hdim, Hmod.
    unfold divided_shape.
    erewrite list_lookup_total_correct; last first.
    { rewrite list_lookup_imap, (list_lookup_lookup_total_lt shape dim Hdim).
      simpl. by rewrite Hget. }
    set (d := shape !!! dim) in *.
    set (p := axes_product mesh_shape axes) in *.
    destruct (decide (p = 0%Z)) as [Hp|Hp].
    + rewrite Hp in *. rewrite Z.mod_0_r in Hmod. lia.
    + rewrite Z.mul_comm. symmetry. by apply Z_div_exact_full_2.
  - intros self strategy key op_data s e Hkey Hlayout Hshape.
    unfold StrategyGenerator_V2._compute_size_in_bytes.
    rewrite (lookup_item_Some _ _ _ Hkey). simpl.
    unfold getitem. rewrite Hlayout. simpl.
    by rewrite Hshape.
Qed.

Lemma get_sharded_shape_per_device_exact_witness :
  ShardingSpec.get_sharded_shape_per_device (ten_over 5)
  = Ok (divided_shape [5%Z] [10%Z] [(0, [0])]) ∧
  ShardingSpec.get_sharded_shape_per_device (ten_over 3)
  = Err NonDivisibleShard ∧
  (([2%Z] !!! 0%nat) * axes_product [5%Z] [0%nat] = [10%Z] !!! 0%nat)%Z ∧
  StrategyGenerator_V2._compute_size_in_bytes linear_generator
    strategy_ten_over_three "input" = Err NonDivisibleShard.
Proof.
  destruct get_sharded_shape_per_device_exact as (Hshape & Hhelper & _).
  assert (Hwell : ∀ n, well_indexed [n] [10%Z] [(0, [0])]).
  { intros n. split; [apply NoDup_singleton|].
    repeat constructor; simpl; lia. }
  destruct (Hshape (ten_over 5) (Hwell 5%Z)) as (Hok & _ & Hexact).
  destruct (Hshape (ten_over 3) (Hwell 3%Z)) as (_ & Herr & _).
  split; [|split; [|split]].
  - apply Hok. repeat constructor.
  - apply Herr. intros Heven.
    apply Forall_cons in Heven as [Hmod _]. discriminate Hmod.
  - apply (Hexact [2%Z] 0 [0]); reflexivity.
  - apply (Hhelper linear_generator strategy_ten_over_three "input"
             linear_input (ten_over 3) NonDivisibleShard); reflexivity.
Defined.

(** ** [_compute_size_in_bytes] *)

(** C5, as stated, fails: a name of the operand mapping is not enough.  The
    strategy has no layout for the weight, and the subscript raises
    [KeyError]; the loss is a scalar, its per-device shape is empty, and the
    reduction over it raises [TypeError]. *)
Lemma compute_size_in_bytes_not_total :
  StrategyGenerator_V2.op_data linear_generator !! "weight"
  = Some linear_weight ∧
  StrategyGenerator_V2._compute_size_in_bytes linear_generator
    strategy_one_action "weight" = Err KeyError ∧
  StrategyGenerator_V2.op_data linear_generator !! "loss" = Some scalar_loss ∧
  dict_get (ShardingStrategy_V2.sharding_specs strategy_one_action) scalar_loss
  = Some loss_layout ∧
  ShardingSpec.get_sharded_shape_per_device loss_layout = Ok [] ∧
  StrategyGenerator_V2._compute_size_in_bytes linear_generator
    strategy_one_action "loss" = Err TypeError.
Proof. repeat split. Qed.

(** C5, amended.  For an operand name of the mapping and a strategy that
    holds a layout for that operand, when the per-device shape derived from
    the layout has at least one dimension, the helper returns the product
    of its dimensions times the byte size of the operand's element type.
    When the strategy holds no layout for the operand, the helper raises
    [KeyError], as it does for a name that is not in the mapping.  A
    [float32] operand of per-device shape [8, 4] takes 128 bytes. *)
Theorem compute_size_in_bytes_product :
  (∀ self strategy key op_data s sharded_shape,
     StrategyGenerator_V2.op_data self !! key = Some op_data →
     dict_get (ShardingStrategy_V2.sharding_specs strategy) op_data = Some s →
     ShardingSpec.get_sharded_shape_per_device s = Ok sharded_shape →
     sharded_shape ≠ [] →
     StrategyGenerator_V2._compute_size_in_bytes self strategy key
     = Ok (foldr Z.mul 1 sharded_shape
           * torch.element_size
               (torch.tensor_dtype (OperationData.data op_data)))%Z) ∧
  (∀ self strategy key op_data,
     StrategyGenerator_V2.op_data self !! key = Some op_data →
     dict_get (ShardingStrategy_V2.sharding_specs strategy) op_data = None →
     StrategyGenerator_V2._compute_size_in_bytes self strategy key
     = Err KeyError) ∧
  (∀ self strategy key,
     StrategyGenerator_V2.op_data self !! key = None →
     StrategyGenerator_V2._compute_size_in_bytes self strategy key
     = Err KeyError) ∧
  ShardingSpec.get_sharded_shape_per_device input_layout = Ok [8; 4]%Z ∧
  StrategyGenerator_V2._compute_size_in_bytes linear_generator
    strategy_one_action "input" = Ok 128%Z.
Proof.
  split; [|split; [|split; [|by split]]].
  - intros self strategy key op_data s sharded_shape Hkey Hlayout Hshape Hdims.
    unfold StrategyGenerator_V2._compute_size_in_bytes.
    rewrite (lookup_item_Some _ _ _ Hkey). simpl.
    unfold getitem. rewrite Hlayout. simpl. rewrite Hshape. simpl.
    destruct sharded_shape as [|d sharded_shape]; [done|].
    by rewrite reduce_mul_cons.
  - intros self strategy key op_data Hkey Hlayout.
    unfold StrategyGenerator_V2._compute_size_in_bytes.
    rewrite (lookup_item_Some _ _ _ Hkey). simpl.
    unfold getitem. by rewrite Hlayout.
  - intros self strategy key Hkey.
    unfold StrategyGenerator_V2._compute_size_in_bytes.
    by rewrite (lookup_item_None _ _ Hkey).
Qed.

Lemma compute_size_in_bytes_product_witness :
  StrategyGenerator_V2._compute_size_in_bytes linear_generator
    strategy_one_action "input"
  = Ok (foldr Z.mul 1 [8; 4] * torch.element_size torch.float32)%Z ∧
  StrategyGenerator_V2._compute_size_in_bytes linear_generator
    strategy_one_action "weight" = Err KeyError ∧
  StrategyGenerator_V2._compute_size_in_bytes linear_generator
    strategy_one_action "bias" = Err KeyError.
Proof.
  split; [|split].
  - apply (proj1 compute_size_in_bytes_product linear_generator
             strategy_one_action "input" linear_input input_layout [8; 4]%Z);
      [reflexivity | reflexivity | reflexivity | discriminate].
  - apply (proj1 (proj2 compute_size_in_bytes_product) linear_generator
             strategy_one_action "weight" linear_weight); reflexivity.
  - apply (proj1 (proj2 (proj2 compute_size_in_bytes_product)) linear_generator
             strategy_one_action "bias"); reflexivity.
Defined.

(** ** [get_communication_spec] *)

(** C4. For a pair of axes the factory replaces the mesh of the sharding
    spec passed in by its flattened form: after the call the sharding spec
    is on a mesh of one axis whose size is the product of the sizes of all
    axes of the original mesh (4 x 8 gives one axis of 32), its logical
    shape and dim partition are kept, and the comm spec returned refers to
    that sharding spec and records axis 0.  For one axis the sharding spec
    keeps its mesh and the comm spec records the axis given. *)
Theorem get_communication_spec_flatten (self : StrategyGenerator_V2.t)
    (sharding_spec : ShardingSpec.t) (pattern : CollectiveCommPattern) :
  (∀ a b,
     let made :=
       StrategyGenerator_V2.get_communication_spec self sharding_spec pattern
         (AxisList [a; b]) in
     DeviceMesh.mesh_shape (ShardingSpec.device_mesh made.1)
     = [foldr Z.mul 1%Z
          (DeviceMesh.mesh_shape (ShardingSpec.device_mesh sharding_spec))] ∧
     ShardingSpec.device_mesh made.1
     = DeviceMesh.flatten (ShardingSpec.device_mesh sharding_spec) ∧
     ShardingSpec.entire_shape made.1 = ShardingSpec.entire_shape sharding_spec ∧
     ShardingSpec.dim_partition_dict made.1
     = ShardingSpec.dim_partition_dict sharding_spec ∧
     CommSpec.sharding_spec made.2 = made.1 ∧
     DeviceMesh.mesh_shape
       (ShardingSpec.device_mesh (CommSpec.sharding_spec made.2))
     = [foldr Z.mul 1%Z
          (DeviceMesh.mesh_shape (ShardingSpec.device_mesh sharding_spec))] ∧
     CommSpec.logical_process_axis made.2 = AxisInt 0 ∧
     CommSpec.comm_pattern made.2 = pattern) ∧
  (∀ a b,
     DeviceMesh.mesh_shape (ShardingSpec.device_mesh sharding_spec)
     = [4; 8]%Z →
     let made :=
       StrategyGenerator_V2.get_communication_spec self sharding_spec pattern
         (AxisList [a; b]) in
     DeviceMesh.mesh_shape (ShardingSpec.device_mesh made.1) = [32%Z] ∧
     DeviceMesh.mesh_shape
       (ShardingSpec.device_mesh (CommSpec.sharding_spec made.2)) = [32%Z] ∧
     CommSpec.logical_process_axis made.2 = AxisInt 0) ∧
  (∀ a,
     let made :=
       StrategyGenerator_V2.get_communication_spec self sharding_spec pattern
         (AxisInt a) in
     made.1 = sharding_spec ∧
     ShardingSpec.device_mesh made.1 = ShardingSpec.device_mesh sharding_spec ∧
     made.2 = {| CommSpec.comm_pattern := pattern;
                 CommSpec.sharding_spec := sharding_spec;
                 CommSpec.logical_process_axis := AxisInt a |}) ∧
  (∀ a,
     let made :=
       StrategyGenerator_V2.get_communication_spec self sharding_spec pattern
         (AxisList [a]) in
     made.1 = sharding_spec ∧
     ShardingSpec.device_mesh made.1 = ShardingSpec.device_mesh sharding_spec ∧
     made.2 = {| CommSpec.comm_pattern := pattern;
                 CommSpec.sharding_spec := sharding_spec;
                 CommSpec.logical_process_axis := AxisList [a] |}).
Proof.
  split; [|split; [|split]].
  - intros a b. simpl. by repeat split.
  - intros a b Hmesh. simpl. unfold DeviceMesh.num_devices. rewrite Hmesh.
    by repeat split.
  - intros a. simpl. by repeat split.
  - intros a. simpl. by repeat split.
Qed.

Lemma get_communication_spec_flatten_witness :
  DeviceMesh.mesh_shape
    (ShardingSpec.device_mesh
       (StrategyGenerator_V2.get_communication_spec linear_generator
          output_layout_4x8 REDUCE_FWD_IDENTITY_BWD (AxisList [0; 1])).1)
  = [32%Z] ∧
  DeviceMesh.mesh_shape
    (ShardingSpec.device_mesh
       (CommSpec.sharding_spec
          (StrategyGenerator_V2.get_communication_spec linear_generator
             output_layout_4x8 REDUCE_FWD_IDENTITY_BWD (AxisList [0; 1])).2))
  = [32%Z] ∧
  CommSpec.logical_process_axis
    (StrategyGenerator_V2.get_communication_spec linear_generator
       output_layout_4x8 REDUCE_FWD_IDENTITY_BWD (AxisList [0; 1])).2
  = AxisInt 0.
Proof.
  apply (proj1 (proj2 (get_communication_spec_flatten linear_generator
                         output_layout_4x8 REDUCE_FWD_IDENTITY_BWD)) 0 1).
  reflexivity.
Defined.

(** ** Layout construction and strategy assembly *)

Lemma names_known_or_not {V W} (m : gmap string W) (l : list (string * V)) :
  Forall (fun kv => is_Some (m !! kv.1)) l ∨
  Exists (fun kv => m !! kv.1 = None) l.
Proof.
  induction l as [|[k v] l [IH|IH]].
  - left. by apply Forall_nil.
  - destruct (m !! k) as [w|] eqn:Hk.
    + left. apply Forall_cons. split; [by exists w | done].
    + right. by apply Exists_cons_hd.
  - right. by apply Exists_cons_tl.
Qed.

Lemma replace_op_name_with_op_data_checked {V} (self : StrategyGenerator_V2.t)
    (mapping : dict string V) :
  (Forall (fun kv => is_Some (StrategyGenerator_V2.op_data self !! kv.1)) mapping →
   ∃ results,
     StrategyGenerator_V2.replace_op_name_with_op_data self mapping = Ok results) ∧
  (Exists (fun kv => StrategyGenerator_V2.op_data self !! kv.1 = None) mapping →
   StrategyGenerator_V2.replace_op_name_with_op_data self mapping = Err KeyError).
Proof.
  apply (for_each_lookup_item (StrategyGenerator_V2.op_data self)
           (fun k v op_data results => setitem results op_data v)).
Qed.

(** C6. Layout construction ([to_sharding_spec_mapping]), the rekeying
    behind strategy assembly ([replace_op_name_with_op_data]) and strategy
    assembly itself ([get_sharding_strategy]) raise [KeyError] (the spec's
    UnknownOperand) when a name of an input mapping is not in the operand
    mapping, and return when every name is. *)
Theorem operand_names_checked (self : StrategyGenerator_V2.t) :
  (∀ mapping : dict string (dict nat (list nat)),
     (Exists (fun kv => StrategyGenerator_V2.op_data self !! kv.1 = None) mapping →
      StrategyGenerator_V2.to_sharding_spec_mapping self mapping = Err KeyError) ∧
     (Forall (fun kv => is_Some (StrategyGenerator_V2.op_data self !! kv.1)) mapping →
      ∃ results,
        StrategyGenerator_V2.to_sharding_spec_mapping self mapping = Ok results)) ∧
  (∀ V (mapping : dict string V),
     (Exists (fun kv => StrategyGenerator_V2.op_data self !! kv.1 = None) mapping →
      StrategyGenerator_V2.replace_op_name_with_op_data self mapping
      = Err KeyError) ∧
     (Forall (fun kv => is_Some (StrategyGenerator_V2.op_data self !! kv.1)) mapping →
      ∃ results,
        StrategyGenerator_V2.replace_op_name_with_op_data self mapping
        = Ok results)) ∧
  (∀ name (sharding_spec_mapping : dict string ShardingSpec.t)
     (communication_action_mapping : dict string CommSpec.t),
     (Exists (fun kv => StrategyGenerator_V2.op_data self !! kv.1 = None)
        sharding_spec_mapping ∨
      Exists (fun kv => StrategyGenerator_V2.op_data self !! kv.1 = None)
        communication_action_mapping →
      StrategyGenerator_V2.get_sharding_strategy self name
        sharding_spec_mapping communication_action_mapping = Err KeyError) ∧
     (Forall (fun kv => is_Some (StrategyGenerator_V2.op_data self !! kv.1))
        sharding_spec_mapping →
      Forall (fun kv => is_Some (StrategyGenerator_V2.op_data self !! kv.1))
        communication_action_mapping →
      ∃ strategy,
        StrategyGenerator_V2.get_sharding_strategy self name
          sharding_spec_mapping communication_action_mapping = Ok strategy ∧
        ShardingStrategy_V2.name strategy = name ∧
        ShardingStrategy_V2.communication_cost strategy = None ∧
        ShardingStrategy_V2.compute_cost strategy = None ∧
        ShardingStrategy_V2.memory_cost strategy = None)).
Proof.
  split; [|split].
  - intros mapping.
    destruct (for_each_lookup_item (StrategyGenerator_V2.op_data self)
                (fun k (v : dict nat (list nat)) op_data results =>
                   setitem results k
                     {| ShardingSpec.device_mesh :=
                          StrategyGenerator_V2.device_mesh self;
                        ShardingSpec.entire_shape :=
                          OperationData.logical_shape op_data;
                        ShardingSpec.dim_partition_dict := v |})
                mapping []) as [Hok Herr].
    split; [exact Herr | exact Hok].
  - intros V mapping.
    destruct (replace_op_name_with_op_data_checked self mapping) as [Hok Herr].
    by split.
  - intros name specs actions.
    unfold StrategyGenerator_V2.get_sharding_strategy.
    destruct (replace_op_name_with_op_data_checked self specs)
      as [Hspecs_ok Hspecs_err].
    destruct (replace_op_name_with_op_data_checked self actions)
      as [Hactions_ok Hactions_err].
    split.
    + intros [Hex|Hex].
      * by rewrite (Hspecs_err Hex).
      * destruct (names_known_or_not (StrategyGenerator_V2.op_data self) specs)
          as [Hall|Hex'].
        -- destruct (Hspecs_ok Hall) as [results ->]. simpl.
           by rewrite (Hactions_err Hex).
        -- by rewrite (Hspecs_err Hex').
    + intros Hspecs Hactions.
      destruct (Hspecs_ok Hspecs) as [layouts ->].
      destruct (Hactions_ok Hactions) as [comm ->].
      by eexists.
Qed.

(** Every name of a literal mapping is looked up by evaluation. *)
Ltac names_known :=
  repeat (apply Forall_cons; split; [eexists; vm_compute; reflexivity|]);
  by apply Forall_nil.

Lemma operand_names_checked_witness :
  StrategyGenerator_V2.to_sharding_spec_mapping linear_generator
    [("input", [(1, [1])]); ("bias", [(0, [0])])] = Err KeyError ∧
  (∃ results,
     StrategyGenerator_V2.to_sharding_spec_mapping linear_generator
       [("input", [(1, [1])]); ("output", [(0, [0])])] = Ok results) ∧
  StrategyGenerator_V2.get_sharding_strategy linear_generator "S0R = S0R x RR"
    [("input", input_layout)] [("bias", reduce_output)] = Err KeyError ∧
  (∃ strategy,
     StrategyGenerator_V2.get_sharding_strategy linear_generator "S0R = S0R x RR"
       [("input", input_layout)] [("output", reduce_output)] = Ok strategy ∧
     ShardingStrategy_V2.name strategy = "S0R = S0R x RR" ∧
     ShardingStrategy_V2.communication_cost strategy = None ∧
     ShardingStrategy_V2.compute_cost strategy = None ∧
     ShardingStrategy_V2.memory_cost strategy = None).
Proof.
  destruct (operand_names_checked linear_generator)
    as (Hlayout & _ & Hassembly).
  split; [|split; [|split]].
  - apply (proj1 (Hlayout _)).
    apply Exists_cons_tl, Exists_cons_hd. reflexivity.
  - apply (proj2 (Hlayout _)).
    names_known.
  - apply (proj1 (Hassembly _ _ _)). right.
    apply Exists_cons_hd. reflexivity.
  - apply (proj2 (Hassembly _ _ _)).
    + names_known.
    + names_known.
Defined.

(** * Further properties of the generator's services *)

(** ** Dictionary stores *)

Section DictStore.
Context {K V : Type} `{EqDecision K}.

Lemma dict_get_setitem_eq (d : dict K V) (k : K) (v : V) :
  dict_get (setitem d k v) k = Some v.
Proof.
  induction d as [|[k' v'] d IH]; simpl.
  - by case_decide.
  - case_decide as Hk; simpl; by case_decide.
Qed.

Lemma dict_get_setitem_ne (d : dict K V) (k k' : K) (v : V) :
  k ≠ k' → dict_get (setitem d k v) k' = dict_get d k'.
Proof.
  intros Hne. induction d as [|[k0 v0] d IH]; simpl.
  - by case_decide.
  - case_decide as Hk; simpl.
    + subst k0. by repeat case_decide.
    + case_decide; [done | exact IH].
Qed.

Lemma dict_get_Some_elem (d : dict K V) (k : K) (v : V) :
  dict_get d k = Some v → (k, v) ∈ d.
Proof.
  induction d as [|[k' v'] d IH]; simpl; [done|].
  case_decide as Hk.
  - intros [= ->]. subst. apply list_elem_of_here.
  - intros Hget. apply list_elem_of_further. by apply IH.
Qed.

Lemma setitem_keys_fresh (d : dict K V) (k : K) (v : V) :
  k ∉ d.*1 → setitem d k v = d ++ [(k, v)].
Proof.
  induction d as [|[k' v'] d IH]; simpl; [done|].
  intros Hk. apply not_elem_of_cons in Hk as [Hne Hk].
  case_decide; [congruence|]. by rewrite IH.
Qed.

Lemma setitem_keys_known (d : dict K V) (k : K) (v : V) :
  k ∈ d.*1 → (setitem d k v).*1 = d.*1.
Proof.
  induction d as [|[k' v'] d IH]; simpl.
  - intros Hk. by apply elem_of_nil in Hk.
  - intros Hk. case_decide as Hkk; [done|]. simpl.
    apply elem_of_cons in Hk as [Hk|Hk]; [congruence|].
    f_equal. by apply IH.
Qed.

Lemma setitem_NoDup (d : dict K V) (k : K) (v : V) :
  NoDup d.*1 → NoDup (setitem d k v).*1.
Proof.
  intros Hd. destruct (decide (k ∈ d.*1)) as [Hk|Hk].
  - by rewrite setitem_keys_known.
  - rewrite setitem_keys_fresh, fmap_app by done. simpl.
    apply NoDup_app. split; [done|]. split; [|apply NoDup_singleton].
    intros k' Hk' Hin. apply list_elem_of_singleton in Hin. by subst.
Qed.

Lemma elem_of_setitem (d : dict K V) (k k0 : K) (v v0 : V) :
  (k0, v0) ∈ setitem d k v → (k0, v0) ∈ d ∨ (k0 = k ∧ v0 = v).
Proof.
  induction d as [|[k' v'] d IH]; simpl.
  - intros Hin. apply list_elem_of_singleton in Hin. right. by injection Hin.
  - case_decide as Hk.
    + intros Hin. apply elem_of_cons in Hin as [Hin|Hin].
      * right. injection Hin as -> ->. done.
      * left. by apply list_elem_of_further.
    + intros Hin. apply elem_of_cons in Hin as [Hin|Hin].
      * left. rewrite Hin. apply list_elem_of_here.
      * destruct (IH Hin) as [?|?]; [left|by right].
        by apply list_elem_of_further.
Qed.

Lemma setitem_nonempty (d : dict K V) (k : K) (v : V) : setitem d k v ≠ [].
Proof. destruct d as [|[k' v'] d]; simpl; [done|]. by case_decide. Qed.

End DictStore.

(** ** Loops that look a name up and store under a key *)

Section StoreLoop.
Context {V W K' V' : Type} `{EqDecision K'}.
Context (m : gmap string W) (key : string → W → K')
        (val : string → V → W → V').

(** The shape shared by the loops of [to_sharding_spec_mapping] and
    [replace_op_name_with_op_data]. *)
Local Abbreviation store_loop :=
  (for_each (fun '(k, v) acc =>
               w ← lookup_item m k;
               mret (setitem acc (key k w) (val k v w)))).

Lemma store_loop_cons k v (l : list (string * V)) acc r :
  store_loop ((k, v) :: l) acc = Ok r →
  ∃ w, m !! k = Some w ∧
       store_loop l (setitem acc (key k w) (val k v w)) = Ok r.
Proof.
  simpl. destruct (m !! k) as [w|] eqn:Hk.
  - rewrite (lookup_item_Some _ _ _ Hk). simpl. intros Hloop. by exists w.
  - by rewrite (lookup_item_None _ _ Hk).
Qed.

(** A key no entry stores under keeps the value it had. *)
Lemma store_loop_other (l : list (string * V)) acc r k0 :
  store_loop l acc = Ok r →
  Forall (fun kv => ∀ w, m !! kv.1 = Some w → key kv.1 w ≠ k0) l →
  dict_get r k0 = dict_get acc k0.
Proof.
  revert acc. induction l as [|[k v] l IH]; intros acc Hloop Hother.
  - by injection Hloop as <-.
  - apply store_loop_cons in Hloop as (w & Hk & Hloop).
    apply Forall_cons in Hother as [Hhead Hother].
    rewrite (IH _ Hloop Hother).
    apply dict_get_setitem_ne. by apply Hhead.
Qed.

(** The last entry that stores under a key decides its value. *)
Lemma store_loop_last pre k v post acc r w :
  store_loop (pre ++ (k, v) :: post) acc = Ok r →
  m !! k = Some w →
  Forall (fun kv => ∀ w', m !! kv.1 = Some w' → key kv.1 w' ≠ key k w) post →
  dict_get r (key k w) = Some (val k v w).
Proof.
  revert acc. induction pre as [|[k' v'] pre IH]; intros acc Hloop Hk Hpost.
  - apply store_loop_cons in Hloop as (w' & Hk' & Hloop).
    assert (w' = w) as -> by congruence.
    rewrite (store_loop_other _ _ _ _ Hloop Hpost).
    apply dict_get_setitem_eq.
  - apply store_loop_cons in Hloop as (w' & Hk' & Hloop).
    by apply (IH _ Hloop).
Qed.

Lemma store_loop_NoDup (l : list (string * V)) acc r :
  NoDup acc.*1 → store_loop l acc = Ok r → NoDup r.*1.
Proof.
  revert acc. induction l as [|[k v] l IH]; intros acc Hacc Hloop.
  - by injection Hloop as <-.
  - apply store_loop_cons in Hloop as (w & Hk & Hloop).
    apply (IH _ (setitem_NoDup _ _ _ Hacc) Hloop).
Qed.

Lemma store_loop_sound (l : list (string * V)) acc r k0 v0 :
  store_loop l acc = Ok r →
  (k0, v0) ∈ r →
  (k0, v0) ∈ acc ∨
  ∃ k v w, (k, v) ∈ l ∧ m !! k = Some w ∧ k0 = key k w ∧ v0 = val k v w.
Proof.
  revert acc. induction l as [|[k v] l IH]; intros acc Hloop Hin.
  - injection Hloop as <-. by left.
  - apply store_loop_cons in Hloop as (w & Hk & Hloop).
    destruct (IH _ Hloop Hin) as [Hacc|(k1 & v1 & w1 & Hl & ?)].
    + apply elem_of_setitem in Hacc as [Hacc|[-> ->]]; [by left|].
      right. exists k, v, w. split; [apply list_elem_of_here | done].
    + right. exists k1, v1, w1. split; [by apply list_elem_of_further | done].
Qed.

Lemma store_loop_nonempty (l : list (string * V)) acc r :
  store_loop l acc = Ok r → acc ≠ [] ∨ l ≠ [] → r ≠ [].
Proof.
  revert acc. induction l as [|[k v] l IH]; intros acc Hloop Hne.
  - injection Hloop as <-. by destruct Hne.
  - apply store_loop_cons in Hloop as (w & Hk & Hloop).
    apply (IH _ Hloop). left. apply setitem_nonempty.
Qed.

End StoreLoop.

(** When every entry stores under its own name and the names are new and
    distinct, the names are appended in order. *)
Lemma name_loop_keys {V W V'} (m : gmap string W) (val : string → V → W → V')
    (l : list (string * V)) acc r :
  for_each (fun '(k, v) acc =>
              w ← lookup_item m k; mret (setitem acc k (val k v w))) l acc
  = Ok r →
  NoDup (acc.*1 ++ l.*1) →
  r.*1 = acc.*1 ++ l.*1.
Proof.
  revert acc. induction l as [|[k v] l IH]; intros acc Hloop Hnodup.
  - injection Hloop as <-. by rewrite app_nil_r.
  - apply (store_loop_cons m (fun k _ => k) val) in Hloop as (w & Hk & Hloop).
    simpl in Hnodup.
    assert (Hfresh : k ∉ acc.*1).
    { apply NoDup_app in Hnodup as (_ & Hdisj & _).
      intros Hin. apply (Hdisj k Hin). apply list_elem_of_here. }
    rewrite (setitem_keys_fresh _ _ _ Hfresh) in Hloop.
    rewrite (IH _ Hloop); rewrite fmap_app; simpl.
    + by rewrite <- app_assoc.
    + by rewrite <- app_assoc.
Qed.

(** ** [replace_op_name_with_op_data] *)

(** The value found under an operand is the one of the last name of the
    mapping that denotes this operand. *)
Theorem replace_op_name_with_op_data_last {V} (self : StrategyGenerator_V2.t)
    (pre post : dict string V) (k : string) (v : V)
    (op_data : OperationData.t) (results : dict OperationData.t V) :
  StrategyGenerator_V2.replace_op_name_with_op_data self
    (pre ++ (k, v) :: post) = Ok results →
  StrategyGenerator_V2.op_data self !! k = Some op_data →
  Forall (fun kv => StrategyGenerator_V2.op_data self !! kv.1 ≠ Some op_data)
    post →
  dict_get results op_data = Some v.
Proof.
  intros Hloop Hk Hpost.
  apply (store_loop_last (StrategyGenerator_V2.op_data self)
           (fun _ w => w) (fun _ v _ => v) pre k v post [] results op_data);
    [exact Hloop | exact Hk |].
  eapply Forall_impl; [exact Hpost|].
  intros [k' v'] Hne w' Hk' ->. by apply Hne.
Qed.

Lemma replace_op_name_with_op_data_last_witness :
  dict_get [(linear_input, 7); (linear_output, 9)] linear_output = Some 9.
Proof.
  apply (replace_op_name_with_op_data_last linear_generator
           [("input", 7)] [] "output" 9 linear_output
           [(linear_input, 7); (linear_output, 9)]).
  - reflexivity.
  - reflexivity.
  - by apply Forall_nil.
Defined.

(** The rekeyed mapping is a dictionary over operands of the generator: its
    keys are pairwise distinct, and each entry is the value of a name of
    the input mapping, stored under the operand this name denotes. *)
Theorem replace_op_name_with_op_data_entries {V}
    (self : StrategyGenerator_V2.t) (mapping : dict string V)
    (results : dict OperationData.t V) :
  StrategyGenerator_V2.replace_op_name_with_op_data self mapping = Ok results →
  NoDup results.*1 ∧
  length results ≤ length mapping ∧
  ∀ op_data v,
    (op_data, v) ∈ results →
    ∃ k, (k, v) ∈ mapping ∧ StrategyGenerator_V2.op_data self !! k = Some op_data.
Proof.
  intros Hloop. unfold StrategyGenerator_V2.replace_op_name_with_op_data in Hloop.
  assert (Hkeys : NoDup results.*1).
  { apply (store_loop_NoDup (StrategyGenerator_V2.op_data self)
             (fun _ w => w) (fun _ v _ => v) mapping [] results);
      [apply NoDup_nil_2 | exact Hloop]. }
  assert (Hsound : ∀ op_data v,
             (op_data, v) ∈ results →
             ∃ k, (k, v) ∈ mapping ∧
                  StrategyGenerator_V2.op_data self !! k = Some op_data).
  { intros op_data v Hin.
    destruct (store_loop_sound (StrategyGenerator_V2.op_data self)
                (fun _ w => w) (fun _ v _ => v) mapping [] results op_data v
                Hloop Hin) as [Hacc|(k & v' & w & Hl & Hk & -> & ->)].
    - by apply elem_of_nil in Hacc.
    - by exists k. }
  split; [done|]. split; [|done].
  (* each key of the result is the operand of a name: count through an
     injection of the result's keys into the mapping's entries *)
  clear Hloop. revert mapping Hsound.
  induction results as [|[op_data v] results IH]; intros mapping Hsound.
  - simpl. lia.
  - destruct (Hsound op_data v (list_elem_of_here _ _)) as (k & Hin & Hk).
    apply list_elem_of_split in Hin as (pre & post & ->).
    simpl in Hkeys. apply NoDup_cons in Hkeys as [Hfresh Hkeys].
    assert (Hle : length results ≤ length (pre ++ post)).
    { apply (IH Hkeys). intros op_data' v' Hin'.
      destruct (Hsound op_data' v' (list_elem_of_further _ _ _ Hin'))
        as (k' & Hin'' & Hk').
      exists k'. split; [|done].
      apply elem_of_app in Hin'' as [?|Hin''].
      - apply elem_of_app. by left.
      - apply elem_of_cons in Hin'' as [Heq|?].
        + injection Heq as -> ->.
          assert (op_data' = op_data) as -> by congruence.
          destruct Hfresh. apply list_elem_of_fmap. by exists (op_data, v).
        + apply elem_of_app. by right. }
    rewrite length_app in *. simpl. lia.
Qed.

Lemma replace_op_name_with_op_data_entries_witness :
  NoDup [(linear_input, 7); (linear_output, 9)].*1 ∧
  length [(linear_input, 7); (linear_output, 9)]
  ≤ length [("input", 7); ("output", 9)] ∧
  ∀ op_data v,
    (op_data, v) ∈ [(linear_input, 7); (linear_output, 9)] →
    ∃ k, (k, v) ∈ [("input", 7); ("output", 9)] ∧
         StrategyGenerator_V2.op_data linear_generator !! k = Some op_data.
Proof.
  apply (replace_op_name_with_op_data_entries linear_generator
           [("input", 7); ("output", 9)]).
  reflexivity.
Defined.

(** Two names that denote the same operand collapse into one entry, which
    holds the value of the second name: the first value is dropped without
    an error. *)
Theorem replace_op_name_with_op_data_collision {V}
    (self : StrategyGenerator_V2.t) (k1 k2 : string) (v1 v2 : V)
    (op_data : OperationData.t) :
  StrategyGenerator_V2.op_data self !! k1 = Some op_data →
  StrategyGenerator_V2.op_data self !! k2 = Some op_data →
  StrategyGenerator_V2.replace_op_name_with_op_data self [(k1, v1); (k2, v2)]
  = Ok [(op_data, v2)].
Proof.
  intros Hk1 Hk2. unfold StrategyGenerator_V2.replace_op_name_with_op_data.
  simpl. rewrite (lookup_item_Some _ _ _ Hk1). simpl.
  rewrite (lookup_item_Some _ _ _ Hk2). simpl.
  by case_decide.
Qed.

Lemma replace_op_name_with_op_data_collision_witness :
  StrategyGenerator_V2.replace_op_name_with_op_data aliased_generator
    [("input", input_layout); ("other", output_layout)]
  = Ok [(linear_input, output_layout)].
Proof.
  apply (replace_op_name_with_op_data_collision aliased_generator
           "input" "other" input_layout output_layout linear_input);
    reflexivity.
Defined.

(** ** [to_sharding_spec_mapping] *)

(** With pairwise distinct names the loop of [to_sharding_spec_mapping]
    keeps the names in order and stores, under each, the layout built from
    its dim partition. *)
Lemma to_sharding_spec_mapping_distinct (self : StrategyGenerator_V2.t)
    (mapping : dict string (dict nat (list nat)))
    (results : dict string ShardingSpec.t) :
  StrategyGenerator_V2.to_sharding_spec_mapping self mapping = Ok results →
  NoDup mapping.*1 →
  results.*1 = mapping.*1 ∧
  ∀ k dim_partition_dict,
    (k, dim_partition_dict) ∈ mapping →
    ∃ op_data,
      StrategyGenerator_V2.op_data self !! k = Some op_data ∧
      dict_get results k
      = Some {| ShardingSpec.device_mesh :=
                  StrategyGenerator_V2.device_mesh self;
                ShardingSpec.entire_shape :=
                  OperationData.logical_shape op_data;
                ShardingSpec.dim_partition_dict := dim_partition_dict |}.
Proof.
  intros Hloop Hnodup.
  unfold StrategyGenerator_V2.to_sharding_spec_mapping in Hloop.
  set (layout := fun (_ : string) (dpd : dict nat (list nat))
                     (op_data : OperationData.t) =>
         {| ShardingSpec.device_mesh := StrategyGenerator_V2.device_mesh self;
            ShardingSpec.entire_shape := OperationData.logical_shape op_data;
            ShardingSpec.dim_partition_dict := dpd |}).
  split.
  - apply (name_loop_keys (StrategyGenerator_V2.op_data self) layout
             mapping [] results Hloop Hnodup).
  - intros k dpd Hin.
    apply list_elem_of_split in Hin as (pre & post & ->).
    assert (Hk : is_Some (StrategyGenerator_V2.op_data self !! k)).
    { destruct (names_known_or_not (StrategyGenerator_V2.op_data self)
                  (pre ++ (k, dpd) :: post)) as [Hall|Hex].
      - apply Forall_app in Hall as [_ Hall].
        by apply Forall_cons in Hall as [? _].
      - apply (for_each_lookup_item (StrategyGenerator_V2.op_data self)
                 (fun k v w acc => setitem acc k (layout k v w))
                 _ []) in Hex.
        discriminate (eq_trans (eq_sym Hloop) Hex). }
    destruct Hk as [op_data Hk]. exists op_data. split; [done|].
    apply (store_loop_last (StrategyGenerator_V2.op_data self)
             (fun k _ => k) layout pre k dpd post [] results op_data
             Hloop Hk).
    rewrite fmap_app in Hnodup. simpl in Hnodup.
    apply NoDup_app in Hnodup as (_ & _ & Hnodup).
    apply NoDup_cons in Hnodup as [Hfresh _].
    apply Forall_forall. intros [k' dpd'] Hin' w' _. simpl. intros ->.
    apply Hfresh. apply list_elem_of_fmap. by exists (k, dpd').
Qed.

(** Every layout built is on the generator's mesh and has the logical shape
    of the operand its name denotes.  When the names of the input mapping
    are pairwise distinct, the result has the same names in the same order,
    and the layout under a name carries the dim partition given for it. *)
Theorem to_sharding_spec_mapping_layouts (self : StrategyGenerator_V2.t)
    (mapping : dict string (dict nat (list nat)))
    (results : dict string ShardingSpec.t) :
  StrategyGenerator_V2.to_sharding_spec_mapping self mapping = Ok results →
  (∀ k sharding_spec,
     (k, sharding_spec) ∈ results →
     ShardingSpec.device_mesh sharding_spec
     = StrategyGenerator_V2.device_mesh self ∧
     ∃ op_data,
       StrategyGenerator_V2.op_data self !! k = Some op_data ∧
       ShardingSpec.entire_shape sharding_spec
       = OperationData.logical_shape op_data) ∧
  (NoDup mapping.*1 →
   results.*1 = mapping.*1 ∧
   ∀ k dim_partition_dict,
     (k, dim_partition_dict) ∈ mapping →
     ∃ op_data,
       StrategyGenerator_V2.op_data self !! k = Some op_data ∧
       dict_get results k
       = Some {| ShardingSpec.device_mesh :=
                   StrategyGenerator_V2.device_mesh self;
                 ShardingSpec.entire_shape :=
                   OperationData.logical_shape op_data;
                 ShardingSpec.dim_partition_dict := dim_partition_dict |}).
Proof.
  intros Hloop. split.
  - unfold StrategyGenerator_V2.to_sharding_spec_mapping in Hloop.
    intros k sharding_spec Hin.
    destruct (store_loop_sound (StrategyGenerator_V2.op_data self)
                (fun k _ => k)
                (fun (_ : string) (dpd : dict nat (list nat))
                     (op_data : OperationData.t) =>
                   {| ShardingSpec.device_mesh :=
                        StrategyGenerator_V2.device_mesh self;
                      ShardingSpec.entire_shape :=
                        OperationData.logical_shape op_data;
                      ShardingSpec.dim_partition_dict := dpd |})
                mapping [] results k sharding_spec
                Hloop Hin) as [Hacc|(k' & dpd & w & Hl & Hk & -> & ->)].
    + by apply elem_of_nil in Hacc.
    + split; [done|]. by exists w.
  - by apply to_sharding_spec_mapping_distinct.
Qed.

Lemma to_sharding_spec_mapping_layouts_witness :
  [("input", input_layout); ("output", output_layout)].*1
  = [("input", [(1, [1])]); ("output", [(0, [0])])].*1 ∧
  ∀ k dim_partition_dict,
    (k, dim_partition_dict) ∈ [("input", [(1, [1])]); ("output", [(0, [0])])] →
    ∃ op_data,
      StrategyGenerator_V2.op_data linear_generator !! k = Some op_data ∧
      dict_get [("input", input_layout); ("output", output_layout)] k
      = Some {| ShardingSpec.device_mesh :=
                  StrategyGenerator_V2.device_mesh linear_generator;
                ShardingSpec.entire_shape :=
                  OperationData.logical_shape op_data;
                ShardingSpec.dim_partition_dict := dim_partition_dict |}.
Proof.
  apply (to_sharding_spec_mapping_layouts linear_generator
           [("input", [(1, [1])]); ("output", [(0, [0])])]
           [("input", input_layout); ("output", output_layout)]).
  - reflexivity.
  - apply NoDup_cons. split; [|apply NoDup_singleton].
    intros Hin. apply list_elem_of_singleton in Hin. discriminate Hin.
Defined.

(** ** [get_sharding_strategy] followed by the cost and size services *)

Lemma get_sharding_strategy_fields (self : StrategyGenerator_V2.t) name
    (sharding_spec_mapping : dict string ShardingSpec.t)
    (communication_action_mapping : dict string CommSpec.t) strategy :
  StrategyGenerator_V2.get_sharding_strategy self name sharding_spec_mapping
    communication_action_mapping = Ok strategy →
  ∃ sharding_specs communication_actions,
    StrategyGenerator_V2.replace_op_name_with_op_data self sharding_spec_mapping
    = Ok sharding_specs ∧
    StrategyGenerator_V2.replace_op_name_with_op_data self
      communication_action_mapping = Ok communication_actions ∧
    strategy = {| ShardingStrategy_V2.name := name;
                  ShardingStrategy_V2.sharding_specs := sharding_specs;
                  ShardingStrategy_V2.communication_actions :=
                    Some communication_actions;
                  ShardingStrategy_V2.communication_cost := None;
                  ShardingStrategy_V2.compute_cost := None;
                  ShardingStrategy_V2.memory_cost := None |}.
Proof.
  unfold StrategyGenerator_V2.get_sharding_strategy.
  destruct (StrategyGenerator_V2.replace_op_name_with_op_data self
              sharding_spec_mapping) as [sharding_specs|e]; simpl; [|done].
  destruct (StrategyGenerator_V2.replace_op_name_with_op_data self
              communication_action_mapping) as [communication_actions|e];
    simpl; [|done].
  intros [= <-]. by exists sharding_specs, communication_actions.
Qed.

(** A strategy assembled by the factory always has a communication-action
    mapping, empty exactly when no action was given, and no communication
    cost yet.  Pricing it returns it with the zero item, forward 0 and
    backward 0, as its communication cost when no action was given, and
    raises [TypeError], leaving the strategy without a communication cost,
    as soon as one action was given, whatever its pattern. *)
Theorem get_sharding_strategy_then_cost `{CommCostModel}
    (self : StrategyGenerator_V2.t) name
    (sharding_spec_mapping : dict string ShardingSpec.t)
    (communication_action_mapping : dict string CommSpec.t) strategy :
  StrategyGenerator_V2.get_sharding_strategy self name sharding_spec_mapping
    communication_action_mapping = Ok strategy →
  (∃ actions,
     ShardingStrategy_V2.communication_actions strategy = Some actions ∧
     (actions = [] ↔ communication_action_mapping = [])) ∧
  ShardingStrategy_V2.communication_cost strategy = None ∧
  (communication_action_mapping = [] →
   ∃ returned,
     StrategyGenerator_V2.update_communication_cost self strategy
     = (Ok returned, returned) ∧
     ShardingStrategy_V2.communication_cost returned
     = Some {| TrainCycleItem.fwd := 0; TrainCycleItem.bwd := 0 |} ∧
     ShardingStrategy_V2.communication_actions returned = Some []) ∧
  (communication_action_mapping ≠ [] →
   StrategyGenerator_V2.update_communication_cost self strategy
   = (Err TypeError, strategy) ∧
   ShardingStrategy_V2.communication_cost
     (StrategyGenerator_V2.update_communication_cost self strategy).2 = None).
Proof.
  intros Hassembled.
  apply get_sharding_strategy_fields in Hassembled
    as (sharding_specs & communication_actions & _ & Hactions & ->).
  assert (Hempty : communication_actions = [] ↔ communication_action_mapping = []).
  { split.
    - intros ->. destruct communication_action_mapping as [|entry rest]; [done|].
      unfold StrategyGenerator_V2.replace_op_name_with_op_data in Hactions.
      apply (store_loop_nonempty (StrategyGenerator_V2.op_data self)
               (fun _ w => w) (fun _ v _ => v)) in Hactions; [done|by right].
    - intros ->. by injection Hactions as <-. }
  split; [by exists communication_actions|]. split; [done|]. split.
  - intros Hnone. apply Hempty in Hnone as ->. eexists. by repeat split.
  - intros Hne.
    destruct communication_actions as [|[operand comm_spec] actions].
    + destruct Hne. by apply Hempty.
    + done.
Qed.

Lemma get_sharding_strategy_then_cost_witness :
  (∃ returned,
     StrategyGenerator_V2.update_communication_cost (H := flat_volume)
       linear_generator (strategy_with [(linear_input, input_layout)] (Some []))
     = (Ok returned, returned) ∧
     ShardingStrategy_V2.communication_cost returned
     = Some {| TrainCycleItem.fwd := 0; TrainCycleItem.bwd := 0 |} ∧
     ShardingStrategy_V2.communication_actions returned = Some []) ∧
  (StrategyGenerator_V2.update_communication_cost (H := flat_volume)
     linear_generator
     (strategy_with [(linear_input, input_layout)]
        (Some [(linear_output, reduce_output)]))
   = (Err TypeError,
      strategy_with [(linear_input, input_layout)]
        (Some [(linear_output, reduce_output)])) ∧
   ShardingStrategy_V2.communication_cost
     (StrategyGenerator_V2.update_communication_cost (H := flat_volume)
        linear_generator
        (strategy_with [(linear_input, input_layout)]
           (Some [(linear_output, reduce_output)]))).2 = None).
Proof.
  split.
  - apply (get_sharding_strategy_then_cost (H := flat_volume) linear_generator
             "S0S1 = S0R x RS1" [("input", input_layout)] []);
      reflexivity.
  - apply (get_sharding_strategy_then_cost (H := flat_volume) linear_generator
             "S0S1 = S0R x RS1" [("input", input_layout)]
             [("output", reduce_output)]).
    + reflexivity.
    + discriminate.
Defined.

(** Layout construction, assembly and the size helper fit together: for a
    name of a layout request with pairwise distinct names whose operand no
    other requested name denotes, the size computed on the assembled
    strategy is the one of the layout built from that name's own dim
    partition, on the generator's mesh, with the operand's logical shape. *)
Theorem compute_size_in_bytes_of_assembled (self : StrategyGenerator_V2.t)
    (mapping : dict string (dict nat (list nat)))
    (sharding_spec_mapping : dict string ShardingSpec.t) name
    (communication_action_mapping : dict string CommSpec.t) strategy
    (key : string) (dim_partition_dict : dict nat (list nat))
    (op_data : OperationData.t) :
  StrategyGenerator_V2.to_sharding_spec_mapping self mapping
  = Ok sharding_spec_mapping →
  StrategyGenerator_V2.get_sharding_strategy self name sharding_spec_mapping
    communication_action_mapping = Ok strategy →
  NoDup mapping.*1 →
  (key, dim_partition_dict) ∈ mapping →
  StrategyGenerator_V2.op_data self !! key = Some op_data →
  Forall (fun kv => kv.1 ≠ key →
                    StrategyGenerator_V2.op_data self !! kv.1 ≠ Some op_data)
    mapping →
  StrategyGenerator_V2._compute_size_in_bytes self strategy key
  = (sharded_shape ←
       ShardingSpec.get_sharded_shape_per_device
         {| ShardingSpec.device_mesh := StrategyGenerator_V2.device_mesh self;
            ShardingSpec.entire_shape := OperationData.logical_shape op_data;
            ShardingSpec.dim_partition_dict := dim_partition_dict |};
     product ← reduce_mul sharded_shape;
     mret (product
           * torch.element_size
               (torch.tensor_dtype (OperationData.data op_data)))%Z).
Proof.
  intros Hlayouts Hassembled Hnodup Hin Hkey Hothers.
  destruct (to_sharding_spec_mapping_distinct _ _ _ Hlayouts Hnodup)
    as [Hnames Hlookup].
  destruct (Hlookup _ _ Hin) as (op_data' & Hkey' & Hget).
  assert (op_data' = op_data) as -> by congruence.
  apply dict_get_Some_elem, list_elem_of_split in Hget as (pre & post & ->).
  apply get_sharding_strategy_fields in Hassembled
    as (sharding_specs & communication_actions & Hrekeyed & _ & ->).
  assert (Hfound : dict_get sharding_specs op_data
                   = Some {| ShardingSpec.device_mesh :=
                               StrategyGenerator_V2.device_mesh self;
                             ShardingSpec.entire_shape :=
                               OperationData.logical_shape op_data;
                             ShardingSpec.dim_partition_dict :=
                               dim_partition_dict |}).
  { unfold StrategyGenerator_V2.replace_op_name_with_op_data in Hrekeyed.
    apply (store_loop_last (StrategyGenerator_V2.op_data self)
             (fun _ w => w) (fun _ v _ => v) pre key _ post [] sharding_specs
             op_data Hrekeyed Hkey).
    rewrite <- Hnames in Hnodup.
    rewrite fmap_app in Hnodup, Hnames. simpl in Hnodup, Hnames.
    apply Forall_forall. intros [k' s'] Hin' w' Hk'. simpl in *. intros ->.
    assert (Hk'names : k' ∈ mapping.*1).
    { rewrite <- Hnames. apply elem_of_app. right. apply list_elem_of_further.
      apply list_elem_of_fmap. by exists (k', s'). }
    apply list_elem_of_fmap in Hk'names as ([k'' dpd'] & Heq & Hin'').
    simpl in Heq. subst k''.
    pose proof (proj1 (Forall_forall _ _) Hothers _ Hin'') as Hother.
    simpl in Hother. apply Hother; [|done].
    intros ->. apply NoDup_app in Hnodup as (_ & _ & Hnodup).
    apply NoDup_cons in Hnodup as [Hfresh _].
    apply Hfresh. apply list_elem_of_fmap. by exists (key, s'). }
  unfold StrategyGenerator_V2._compute_size_in_bytes.
  rewrite (lookup_item_Some _ _ _ Hkey). simpl.
  unfold getitem. by rewrite Hfound.
Qed.

Lemma compute_size_in_bytes_of_assembled_witness :
  StrategyGenerator_V2._compute_size_in_bytes linear_generator
    (strategy_with [(linear_input, input_layout); (linear_output, output_layout)]
       (Some []))
    "input"
  = Ok 128%Z.
Proof.
  apply (compute_size_in_bytes_of_assembled linear_generator
           [("input", [(1, [1])]); ("output", [(0, [0])])]
           [("input", input_layout); ("output", output_layout)]
           "S0S1 = S0R x RS1" [] _ "input" [(1, [1])] linear_input).
  - reflexivity.
  - reflexivity.
  - apply NoDup_cons. split; [|apply NoDup_singleton].
    intros Hin. apply list_elem_of_singleton in Hin. discriminate Hin.
  - apply list_elem_of_here.
  - reflexivity.
  - apply Forall_cons. split; [done|].
    apply Forall_cons. split; [|by apply Forall_nil].
    intros _. vm_compute. discriminate.
Defined.

(** ** [get_communication_spec] beyond the two-axis case *)

(** Whatever the axis argument, the factory keeps the logical shape and the
    dim partition of the sharding spec, and the comm spec it returns has the
    pattern given and refers to the sharding spec as the call leaves it.
    The two axes of a pair are never looked at: any two pairs give the same
    result, whether the axes exist on the mesh or not.  A list that does not
    hold exactly two axes is recorded as it is, and the mesh is kept. *)
Theorem get_communication_spec_frame (self : StrategyGenerator_V2.t)
    (sharding_spec : ShardingSpec.t) (pattern : CollectiveCommPattern) :
  (∀ axis,
     let made :=
       StrategyGenerator_V2.get_communication_spec self sharding_spec pattern
         axis in
     ShardingSpec.entire_shape made.1 = ShardingSpec.entire_shape sharding_spec ∧
     ShardingSpec.dim_partition_dict made.1
     = ShardingSpec.dim_partition_dict sharding_spec ∧
     CommSpec.sharding_spec made.2 = made.1 ∧
     CommSpec.comm_pattern made.2 = pattern) ∧
  (∀ a b c d,
     StrategyGenerator_V2.get_communication_spec self sharding_spec pattern
       (AxisList [a; b])
     = StrategyGenerator_V2.get_communication_spec self sharding_spec pattern
         (AxisList [c; d])) ∧
  (∀ l,
     length l ≠ 2 →
     StrategyGenerator_V2.get_communication_spec self sharding_spec pattern
       (AxisList l)
     = (sharding_spec,
        {| CommSpec.comm_pattern := pattern;
           CommSpec.sharding_spec := sharding_spec;
           CommSpec.logical_process_axis := AxisList l |})).
Proof.
  split; [|split].
  - intros axis. unfold StrategyGenerator_V2.get_communication_spec.
    by destruct (isinstance_list axis && Nat.eqb (len axis) 2).
  - done.
  - intros l Hlen. unfold StrategyGenerator_V2.get_communication_spec. simpl.
    by destruct (Nat.eqb_spec (length l) 2).
Qed.

Lemma get_communication_spec_frame_witness :
  StrategyGenerator_V2.get_communication_spec linear_generator output_layout
    REDUCE_FWD_IDENTITY_BWD (AxisList [0; 1; 2])
  = (output_layout,
     {| CommSpec.comm_pattern := REDUCE_FWD_IDENTITY_BWD;
        CommSpec.sharding_spec := output_layout;
        CommSpec.logical_process_axis := AxisList [0; 1; 2] |}).
Proof.
  apply (proj2 (proj2 (get_communication_spec_frame linear_generator
                         output_layout REDUCE_FWD_IDENTITY_BWD))).
  simpl. lia.
Defined.

(** ** The cost closure, composed *)

(** Two runs of the closure commute: the accumulated item, or the
    [ValueError] raised, does not depend on the order in which two actions
    are priced. *)
Theorem compute_and_add_commute `{CommCostModel}
    (operand1 data1 operand2 data2 : OperationData.t)
    (comm_spec1 comm_spec2 : CommSpec.t) (comm_cost : TrainCycleItem.t) :
  (StrategyGenerator_V2._compute_and_add operand1 data1 comm_spec1 comm_cost
   ≫= StrategyGenerator_V2._compute_and_add operand2 data2 comm_spec2)
  = (StrategyGenerator_V2._compute_and_add operand2 data2 comm_spec2 comm_cost
     ≫= StrategyGenerator_V2._compute_and_add operand1 data1 comm_spec1).
Proof.
  unfold StrategyGenerator_V2._compute_and_add, TrainCycleItem.add_fwd.
  destruct (CommSpec.comm_pattern comm_spec1),
           (CommSpec.comm_pattern comm_spec2); simpl; try done;
    do 2 f_equal; lia.
Qed.

Lemma element_size_positive (t : torch.dtype) : (0 < torch.element_size t)%Z.
Proof. by destruct t. Qed.

(** The closure never lowers a cost: with a non-negative number of
    communicated elements, an item it returns has a forward total at least
    as large as before, and its backward total untouched, so non-negative
    totals stay non-negative. *)
Theorem compute_and_add_monotone `{CommCostModel}
    (operand data : OperationData.t) (comm_spec : CommSpec.t)
    (comm_cost comm_cost' : TrainCycleItem.t) :
  (0 ≤ get_comm_cost comm_spec)%Z →
  StrategyGenerator_V2._compute_and_add operand data comm_spec comm_cost
  = Ok comm_cost' →
  (TrainCycleItem.fwd comm_cost ≤ TrainCycleItem.fwd comm_cost')%Z ∧
  TrainCycleItem.bwd comm_cost' = TrainCycleItem.bwd comm_cost.
Proof.
  intros Hvolume. unfold StrategyGenerator_V2._compute_and_add.
  pose proof (element_size_positive
                (torch.tensor_dtype (OperationData.data operand))) as Hsize.
  destruct (CommSpec.comm_pattern comm_spec); simpl; try done;
    intros [= <-]; simpl; split; try done; nia.
Qed.

Lemma compute_and_add_monotone_witness :
  (TrainCycleItem.fwd zero_cost
   ≤ TrainCycleItem.fwd
       {| TrainCycleItem.fwd := 4096; TrainCycleItem.bwd := 0 |})%Z ∧
  TrainCycleItem.bwd {| TrainCycleItem.fwd := 4096; TrainCycleItem.bwd := 0 |}
  = TrainCycleItem.bwd zero_cost.
Proof.
  apply (compute_and_add_monotone (H := flat_volume) linear_output linear_output
           reduce_output zero_cost).
  - discriminate.
  - reflexivity.
Defined.

(** ** [_compute_size_in_bytes] at its edges *)

(** An operand without dimensions has no size: when the per-device shape of
    its layout is empty, the reduction has nothing to start from and the
    helper raises [TypeError] instead of returning the size of one
    element. *)
Theorem compute_size_in_bytes_scalar (self : StrategyGenerator_V2.t)
    (strategy : ShardingStrategy_V2.t) (key : string)
    (op_data : OperationData.t) (s : ShardingSpec.t) :
  StrategyGenerator_V2.op_data self !! key = Some op_data →
  dict_get (ShardingStrategy_V2.sharding_specs strategy) op_data = Some s →
  ShardingSpec.get_sharded_shape_per_device s = Ok [] →
  StrategyGenerator_V2._compute_size_in_bytes self strategy key = Err TypeError.
Proof.
  intros Hkey Hlayout Hshape.
  unfold StrategyGenerator_V2._compute_size_in_bytes.
  rewrite (lookup_item_Some _ _ _ Hkey). simpl.
  unfold getitem. rewrite Hlayout. simpl. by rewrite Hshape.
Qed.

Lemma compute_size_in_bytes_scalar_witness :
  StrategyGenerator_V2._compute_size_in_bytes linear_generator
    strategy_one_action "loss" = Err TypeError.
Proof.
  apply (compute_size_in_bytes_scalar linear_generator strategy_one_action
           "loss" scalar_loss loss_layout); reflexivity.
Defined.

Lemma product_positive (shape : list Z) :
  Forall (fun d => (0 < d)%Z) shape → (0 < foldr Z.mul 1 shape)%Z.
Proof.
  induction shape as [|d shape IH]; intros Hpos; simpl; [lia|].
  apply Forall_cons in Hpos as [Hd Hpos]. specialize (IH Hpos). nia.
Qed.

(** A size that is computed from positive per-device dimensions is
    positive, and at least the byte size of one element. *)
Theorem compute_size_in_bytes_positive (self : StrategyGenerator_V2.t)
    (strategy : ShardingStrategy_V2.t) (key : string)
    (op_data : OperationData.t) (s : ShardingSpec.t) (sharded_shape : list Z) :
  StrategyGenerator_V2.op_data self !! key = Some op_data →
  dict_get (ShardingStrategy_V2.sharding_specs strategy) op_data = Some s →
  ShardingSpec.get_sharded_shape_per_device s = Ok sharded_shape →
  sharded_shape ≠ [] →
  Forall (fun d => (0 < d)%Z) sharded_shape →
  ∃ size,
    StrategyGenerator_V2._compute_size_in_bytes self strategy key = Ok size ∧
    (0 < torch.element_size (torch.tensor_dtype (OperationData.data op_data))
     ≤ size)%Z.
Proof.
  intros Hkey Hlayout Hshape Hdims Hpos.
  unfold StrategyGenerator_V2._compute_size_in_bytes.
  rewrite (lookup_item_Some _ _ _ Hkey). simpl.
  unfold getitem. rewrite Hlayout. simpl. rewrite Hshape. simpl.
  destruct sharded_shape as [|d sharded_shape]; [done|].
  rewrite reduce_mul_cons. simpl. eexists. split; [reflexivity|].
  pose proof (product_positive _ Hpos) as Hproduct. simpl in Hproduct.
  pose proof (element_size_positive
                (torch.tensor_dtype (OperationData.data op_data))).
  nia.
Qed.

Lemma compute_size_in_bytes_positive_witness :
  ∃ size,
    StrategyGenerator_V2._compute_size_in_bytes linear_generator
      strategy_one_action "input" = Ok size ∧
    (0 < torch.element_size
           (torch.tensor_dtype (OperationData.data linear_input))
     ≤ size)%Z.
Proof.
  apply (compute_size_in_bytes_positive linear_generator strategy_one_action
           "input" linear_input input_layout [8; 4]%Z).
  - reflexivity.
  - reflexivity.
  - reflexivity.
  - discriminate.
  - repeat (apply Forall_cons; split; [reflexivity|]). by apply Forall_nil.
Defined.

(** The size helper reads the layouts only: pricing the communication of a
    strategy, whether the call returns or raises, does not change any size
    computed on the strategy afterwards. *)
Theorem compute_size_in_bytes_after_cost `{CommCostModel}
    (self : StrategyGenerator_V2.t) (strategy : ShardingStrategy_V2.t)
    (key : string) :
  StrategyGenerator_V2._compute_size_in_bytes self
    (StrategyGenerator_V2.update_communication_cost self strategy).2 key
  = StrategyGenerator_V2._compute_size_in_bytes self strategy key.
Proof.
  unfold StrategyGenerator_V2.update_communication_cost.
  by destruct (match ShardingStrategy_V2.communication_actions strategy with
               | Some actions => _
               | None => _
               end).
Qed.
